(** * Online Mechanic AI: the Lambda handler and its S3 helper

    A shallow embedding of [backend/lambda_function.py] and
    [backend/utils/s3_helper.py], and the properties of the diagnostic
    pipeline proved over it.

    Layout: the Python values and exceptions the code manipulates, the
    library functions it calls ([str.strip], [base64.b64decode],
    [bytes.decode], [json.loads], [os.path.basename]), the outside world
    (process configuration, clock, S3, the OpenAI client), the two source
    modules, and then the theorems. *)

From Stdlib Require Import ZArith NArith List String Ascii Bool Lia.
From Stdlib Require Import DecimalString.
Import ListNotations.

Set Implicit Arguments.
Set Warnings "-register-all".

(* ================================================================== *)
(** * Python values *)
(* ================================================================== *)

(** A Python [str] is a sequence of Unicode code points. *)
Definition str : Type := list N.

(** A [bytes] object is a sequence of octets. *)
Definition bytes : Type := list N.

Definition chr (a : ascii) : N := N_of_ascii a.
Arguments chr a%_char.

(** The [str] denoted by an ASCII literal of the source. *)
Definition py (s : string) : str := map N_of_ascii (list_ascii_of_string s).
Arguments py s%_string.

Fixpoint str_eqb (a b : str) : bool :=
  match a, b with
  | [], [] => true
  | x :: a', y :: b' => N.eqb x y && str_eqb a' b'
  | _, _ => false
  end.

(** A [float] parsed from a decimal literal is kept as the decimal
    [m * 10^e] it denotes; [json.loads] also yields the three special
    values. *)
Inductive pyfloat : Type :=
| FDec (m e : Z)
| FInf (negative : bool)
| FNaN.

(** The values [json.loads] can produce, which are also the values an event
    can hold.  A [dict] keeps its insertion order. *)
Inductive pyval : Type :=
| PNone
| PBool (b : bool)
| PInt (z : Z)
| PFloat (f : pyfloat)
| PStr (s : str)
| PList (l : list pyval)
| PDict (d : list (str * pyval)).

Definition pydict : Type := list (str * pyval).

(** [type(v).__name__] *)
Definition type_name (v : pyval) : str :=
  match v with
  | PNone => py "NoneType"
  | PBool _ => py "bool"
  | PInt _ => py "int"
  | PFloat _ => py "float"
  | PStr _ => py "str"
  | PList _ => py "list"
  | PDict _ => py "dict"
  end.

(** A binary64 float read from the decimal [m * 10^e] is zero exactly when
    the decimal is at most [2^-1075] in magnitude (round to nearest, ties to
    even). *)
Definition float_nonzero (f : pyfloat) : bool :=
  match f with
  | FDec m e =>
      if (0 <=? e)%Z then negb (m =? 0)%Z
      else (10 ^ (- e) <? Z.abs m * 2 ^ 1075)%Z
  | FInf _ => true
  | FNaN => true
  end.

(** Truth value testing, [bool(v)]. *)
Definition truthy (v : pyval) : bool :=
  match v with
  | PNone => false
  | PBool b => b
  | PInt z => negb (z =? 0)%Z
  | PFloat f => float_nonzero f
  | PStr s => match s with [] => false | _ => true end
  | PList l => match l with [] => false | _ => true end
  | PDict d => match d with [] => false | _ => true end
  end.

(** [a or b] *)
Definition py_or (a b : pyval) : pyval := if truthy a then a else b.

(** [d.get(k)]: the value bound to [k], if any. *)
Fixpoint dict_lookup (d : pydict) (k : str) : option pyval :=
  match d with
  | [] => None
  | (k', v) :: d' => if str_eqb k' k then Some v else dict_lookup d' k
  end.

(** [d.get(k, default)] *)
Definition dict_get (d : pydict) (k : str) (default : pyval) : pyval :=
  match dict_lookup d k with
  | Some v => v
  | None => default
  end.

(** [d[k] = v]: an existing key keeps its position. *)
Fixpoint dict_set (d : pydict) (k : str) (v : pyval) : pydict :=
  match d with
  | [] => [(k, v)]
  | (k', v') :: d' =>
      if str_eqb k' k then (k', v) :: d' else (k', v') :: dict_set d' k v
  end.

(** [str(n)] for an [int]. *)
Definition int_str (z : Z) : str := py (NilZero.string_of_int (Z.to_int z)).

(** ** [str.strip] *)

(** [str.isspace] on one code point (the Unicode whitespace CPython
    strips). *)
Definition isspace (c : N) : bool :=
  ((0x09 <=? c) && (c <=? 0x0D)
   || (0x1C <=? c) && (c <=? 0x20)
   || (c =? 0x85) || (c =? 0xA0) || (c =? 0x1680)
   || (0x2000 <=? c) && (c <=? 0x200A)
   || (c =? 0x2028) || (c =? 0x2029) || (c =? 0x202F)
   || (c =? 0x205F) || (c =? 0x3000))%N.

Fixpoint lstrip (s : str) : str :=
  match s with
  | [] => []
  | c :: s' => if isspace c then lstrip s' else s
  end.

Definition rstrip (s : str) : str := rev (lstrip (rev s)).

Definition strip (s : str) : str := rstrip (lstrip s).

(* ================================================================== *)
(** * Exceptions *)
(* ================================================================== *)

(** The exception classes that occur, with the class hierarchy of CPython,
    botocore and openai: [json.JSONDecodeError], [binascii.Error] and
    [UnicodeDecodeError] derive from [ValueError]; botocore's connection and
    credential errors derive from [BotoCoreError]; [ClientError] (what an S3
    operation raises when the service answers with an error) and
    [openai.OpenAIError] derive from [Exception] directly. *)
Inductive exc_class : Type :=
| ValueError
| JSONDecodeError
| BinasciiError
| UnicodeDecodeError
| RuntimeError
| AttributeError
| TypeError
| BotoCoreError
| EndpointConnectionError
| NoCredentialsError
| ClientError
| OpenAIError.

(** The nearest base class among those listed; [None] stands for
    [Exception]. *)
Definition base (c : exc_class) : option exc_class :=
  match c with
  | JSONDecodeError | BinasciiError | UnicodeDecodeError => Some ValueError
  | EndpointConnectionError | NoCredentialsError => Some BotoCoreError
  | _ => None
  end.

Definition exc_class_eqb (c d : exc_class) : bool :=
  match c, d with
  | ValueError, ValueError
  | JSONDecodeError, JSONDecodeError
  | BinasciiError, BinasciiError
  | UnicodeDecodeError, UnicodeDecodeError
  | RuntimeError, RuntimeError
  | AttributeError, AttributeError
  | TypeError, TypeError
  | BotoCoreError, BotoCoreError
  | EndpointConnectionError, EndpointConnectionError
  | NoCredentialsError, NoCredentialsError
  | ClientError, ClientError
  | OpenAIError, OpenAIError => true
  | _, _ => false
  end.

(** [issubclass(c, d)]; the hierarchy listed has depth two. *)
Definition issubclass (c d : exc_class) : bool :=
  exc_class_eqb c d
  || match base c with
     | Some b => exc_class_eqb b d
     | None => false
     end.

(** An exception instance: its class and [str(exc)]. *)
Record exn : Type := Exn { exc_type : exc_class; exc_message : str }.

(** [isinstance(e, (c1, ..., cn))], the test of an [except] clause. *)
Definition isinstance (e : exn) (classes : list exc_class) : bool :=
  existsb (issubclass (exc_type e)) classes.

Inductive result (A : Type) : Type :=
| Ok (a : A)
| Raise (e : exn).
Arguments Ok {A} a.
Arguments Raise {A} e.

Definition no_attribute (v : pyval) (attr : string) : exn :=
  Exn AttributeError
      (py "'" ++ type_name v ++ py "' object has no attribute '" ++ py attr ++ py "'").

(** [v.strip()] *)
Definition py_strip (v : pyval) : result str :=
  match v with
  | PStr s => Ok (strip s)
  | _ => Raise (no_attribute v "strip")
  end.

(** [list(v)] *)
Definition py_list (v : pyval) : result (list pyval) :=
  match v with
  | PList l => Ok l
  | PStr s => Ok (map (fun c => PStr [c]) s)
  | PDict d => Ok (map (fun kv => PStr (fst kv)) d)
  | _ => Raise (Exn TypeError (py "'" ++ type_name v ++ py "' object is not iterable"))
  end.

(* ================================================================== *)
(** * Library functions *)
(* ================================================================== *)

(** ** [base64.b64decode] *)

Module Base64.

(** [binascii]'s decoding table. *)
Definition b64_value (c : N) : option N :=
  (if (chr "A" <=? c) && (c <=? chr "Z") then Some (c - chr "A")
   else if (chr "a" <=? c) && (c <=? chr "z") then Some (c - chr "a" + 26)
   else if (chr "0" <=? c) && (c <=? chr "9") then Some (c - chr "0" + 52)
   else if c =? chr "+" then Some 62
   else if c =? chr "/" then Some 63
   else None)%N.

Definition binascii_Error (msg : str) : exn := Exn BinasciiError msg.

(** The loop of [binascii.a2b_base64] outside strict mode: characters
    outside the alphabet are skipped, a complete pad sequence ends the
    decoding, and a quad left open at the end is an error. *)
Fixpoint a2b_base64_loop (data : bytes) (quad_pos leftchar pads : N)
         (out : bytes) : result bytes :=
  match data with
  | [] =>
      if (quad_pos =? 0)%N then Ok (rev out)
      else if (quad_pos =? 1)%N then
        Raise (binascii_Error
                 (py "Invalid base64-encoded string: number of data characters ("
                  ++ int_str (Z.of_nat (List.length out) / 3 * 4 + 1)
                  ++ py ") cannot be 1 more than a multiple of 4"))
      else Raise (binascii_Error (py "Incorrect padding"))
  | c :: rest =>
      if (c =? chr "=")%N then
        if (2 <=? quad_pos)%N then
          if (4 <=? quad_pos + (pads + 1))%N then Ok (rev out)
          else a2b_base64_loop rest quad_pos leftchar (pads + 1)%N out
        else a2b_base64_loop rest quad_pos leftchar pads out
      else
        match b64_value c with
        | None => a2b_base64_loop rest quad_pos leftchar pads out
        | Some v =>
            if (quad_pos =? 0)%N then a2b_base64_loop rest 1%N v 0%N out
            else if (quad_pos =? 1)%N then
              a2b_base64_loop rest 2%N (N.land v 0x0f) 0%N
                (N.lor (N.shiftl leftchar 2) (N.shiftr v 4) :: out)
            else if (quad_pos =? 2)%N then
              a2b_base64_loop rest 3%N (N.land v 0x03) 0%N
                (N.lor (N.shiftl leftchar 4) (N.shiftr v 2) :: out)
            else
              a2b_base64_loop rest 0%N 0%N 0%N
                (N.lor (N.shiftl leftchar 6) v :: out)
        end
  end.

Definition a2b_base64 (data : bytes) : result bytes :=
  a2b_base64_loop data 0%N 0%N 0%N [].

(** [base64.b64decode(s)]: a [str] must be ASCII; the values modelled here
    hold no bytes-like object, so any other argument is a [TypeError]. *)
Definition b64decode (s : pyval) : result bytes :=
  match s with
  | PStr t =>
      if forallb (fun c => (c <? 128)%N) t then a2b_base64 t
      else Raise (Exn ValueError
                      (py "string argument should contain only ASCII characters"))
  | _ =>
      Raise (Exn TypeError
                 (py "argument should be a bytes-like object or ASCII string, not '"
                  ++ type_name s ++ py "'"))
  end.

End Base64.

(** ** [bytes.decode("utf-8")] *)

Module Utf8.

Definition cont (b : N) : bool := ((0x80 <=? b) && (b <=? 0xBF))%N.

Definition between (lo hi b : N) : bool := ((lo <=? b) && (b <=? hi))%N.

Definition low6 (b : N) : N := N.land b 0x3F.

(** The strict decoder: shortest forms only, no surrogates, nothing above
    U+10FFFF.  [None] is a [UnicodeDecodeError]. *)
Fixpoint decode_points (data : bytes) : option str :=
  match data with
  | [] => Some []
  | b1 :: r1 =>
      if (b1 <? 0x80)%N then option_map (cons b1) (decode_points r1)
      else
        match r1 with
        | [] => None
        | b2 :: r2 =>
            if between 0xC2 0xDF b1 then
              if cont b2 then
                option_map (cons (N.shiftl (N.land b1 0x1F) 6 + low6 b2)%N)
                           (decode_points r2)
              else None
            else
              match r2 with
              | [] => None
              | b3 :: r3 =>
                  if between 0xE0 0xEF b1 then
                    if (if (b1 =? 0xE0)%N then between 0xA0 0xBF b2
                        else if (b1 =? 0xED)%N then between 0x80 0x9F b2
                        else cont b2) && cont b3
                    then
                      option_map
                        (cons (N.shiftl (N.land b1 0x0F) 12
                               + N.shiftl (low6 b2) 6 + low6 b3)%N)
                        (decode_points r3)
                    else None
                  else
                    match r3 with
                    | [] => None
                    | b4 :: r4 =>
                        if between 0xF0 0xF4 b1
                           && (if (b1 =? 0xF0)%N then between 0x90 0xBF b2
                               else if (b1 =? 0xF4)%N then between 0x80 0x8F b2
                               else cont b2)
                           && cont b3 && cont b4
                        then
                          option_map
                            (cons (N.shiftl (N.land b1 0x07) 18
                                   + N.shiftl (low6 b2) 12
                                   + N.shiftl (low6 b3) 6 + low6 b4)%N)
                            (decode_points r4)
                        else None
                    end
              end
        end
  end.

Definition decode (data : bytes) : result str :=
  match decode_points data with
  | Some s => Ok s
  | None => Raise (Exn UnicodeDecodeError (py "'utf-8' codec can't decode bytes"))
  end.

End Utf8.

(** ** [json.loads] *)

Module Json.

(** The decoder is written as two passes that each read their input once:
    a character automaton producing tokens, and a stack automaton over
    the tokens.  A literal or number is the longest run of word
    characters; since a value must be followed by white space, a comma,
    a closing bracket or the end, that accepts the same documents as
    CPython's scanner.  Two limits of CPython are left out, the recursion
    limit on nesting and the length limit on integer literals: past them
    [json.loads] raises errors of other classes. *)

Inductive token : Type :=
| TLBrace | TRBrace | TLBracket | TRBracket | TComma | TColon
| TString (s : str)
| TWord (w : str).

Definition quote : N := 0x22.
Definition backslash : N := 0x5C.

Definition is_ws (c : N) : bool :=
  ((c =? 0x20) || (c =? 0x09) || (c =? 0x0A) || (c =? 0x0D))%N.

Definition is_digit (c : N) : bool := ((chr "0" <=? c) && (c <=? chr "9"))%N.

Definition is_word_char (c : N) : bool :=
  (is_digit c
   || (chr "a" <=? c) && (c <=? chr "z")
   || (chr "A" <=? c) && (c <=? chr "Z")
   || (c =? chr "+") || (c =? chr "-") || (c =? chr "."))%N.

Definition hex_value (c : N) : option N :=
  (if is_digit c then Some (c - chr "0")
   else if (chr "a" <=? c) && (c <=? chr "f") then Some (c - chr "a" + 10)
   else if (chr "A" <=? c) && (c <=? chr "F") then Some (c - chr "A" + 10)
   else None)%N.

(** The one-character escapes of a JSON string. *)
Definition escape_char (c : N) : option N :=
  (if c =? quote then Some quote
   else if c =? backslash then Some backslash
   else if c =? chr "/" then Some (chr "/")
   else if c =? chr "b" then Some 0x08
   else if c =? chr "f" then Some 0x0C
   else if c =? chr "n" then Some 0x0A
   else if c =? chr "r" then Some 0x0D
   else if c =? chr "t" then Some 0x09
   else None)%N.

(** Inside a string, [pending] holds a high surrogate read from a
    [\uXXXX] escape until the next character shows whether a low
    surrogate escape follows it directly. *)
Inductive lex_state : Type :=
| LIdle
| LWord (acc : str)
| LString (acc : str) (pending : option N)
| LEscape (acc : str) (pending : option N)
| LUnicode (acc : str) (pending : option N) (value : N) (count : nat).

Definition flush (pending : option N) (acc : str) : str :=
  match pending with
  | Some h => h :: acc
  | None => acc
  end.

Definition lex_idle (c : N) (toks : list token) : option (lex_state * list token) :=
  (if is_ws c then Some (LIdle, toks)
   else if c =? chr "{" then Some (LIdle, TLBrace :: toks)
   else if c =? chr "}" then Some (LIdle, TRBrace :: toks)
   else if c =? chr "[" then Some (LIdle, TLBracket :: toks)
   else if c =? chr "]" then Some (LIdle, TRBracket :: toks)
   else if c =? chr "," then Some (LIdle, TComma :: toks)
   else if c =? chr ":" then Some (LIdle, TColon :: toks)
   else if c =? quote then Some (LString [] None, toks)
   else if is_word_char c then Some (LWord [c], toks)
   else None)%N.

Definition end_unicode (acc : str) (pending : option N) (cp : N) : lex_state :=
  match pending with
  | Some h =>
      if ((0xDC00 <=? cp) && (cp <=? 0xDFFF))%N then
        LString ((0x10000 + N.lor (N.shiftl (h - 0xD800) 10) (cp - 0xDC00))%N :: acc) None
      else if ((0xD800 <=? cp) && (cp <=? 0xDBFF))%N then LString (h :: acc) (Some cp)
      else LString (cp :: h :: acc) None
  | None =>
      if ((0xD800 <=? cp) && (cp <=? 0xDBFF))%N then LString acc (Some cp)
      else LString (cp :: acc) None
  end.

Definition lex_step (st : lex_state) (c : N) (toks : list token)
  : option (lex_state * list token) :=
  match st with
  | LIdle => lex_idle c toks
  | LWord acc =>
      if is_word_char c then Some (LWord (c :: acc), toks)
      else lex_idle c (TWord (rev acc) :: toks)
  | LString acc pending =>
      if (c =? quote)%N then Some (LIdle, TString (rev (flush pending acc)) :: toks)
      else if (c =? backslash)%N then Some (LEscape acc pending, toks)
      else if (c <? 0x20)%N then None
      else Some (LString (c :: flush pending acc) None, toks)
  | LEscape acc pending =>
      if (c =? chr "u")%N then Some (LUnicode acc pending 0%N 0%nat, toks)
      else
        match escape_char c with
        | Some x => Some (LString (x :: flush pending acc) None, toks)
        | None => None
        end
  | LUnicode acc pending value count =>
      match hex_value c with
      | None => None
      | Some v =>
          let value' := (value * 16 + v)%N in
          if Nat.eqb count 3 then Some (end_unicode acc pending value', toks)
          else Some (LUnicode acc pending value' (S count), toks)
      end
  end.

(** The automaton run over a text, from a state and the tokens read so far
    (last first). *)
Fixpoint lex_run (s : str) (st : lex_state) (toks : list token)
  : option (lex_state * list token) :=
  match s with
  | [] => Some (st, toks)
  | c :: s' =>
      match lex_step st c toks with
      | Some (st', toks') => lex_run s' st' toks'
      | None => None
      end
  end.

(** At the end of the text a word is complete and a string is not. *)
Definition lex_end (st : lex_state) (toks : list token) : option (list token) :=
  match st with
  | LIdle => Some (rev toks)
  | LWord acc => Some (rev (TWord (rev acc) :: toks))
  | _ => None
  end.

Definition lex (s : str) : option (list token) :=
  match lex_run s LIdle [] with
  | Some (st, toks) => lex_end st toks
  | None => None
  end.

(** *** Literals and numbers *)

Fixpoint span_digits (s : str) : str * str :=
  match s with
  | [] => ([], [])
  | c :: r =>
      if is_digit c then let (d, rest) := span_digits r in (c :: d, rest)
      else ([], s)
  end.

Definition digits_value (d : str) : Z :=
  fold_left (fun a c => (a * 10 + Z.of_N (c - chr "0"))%Z) d 0%Z.

(** The optional fraction [.digits]: [None] when a dot is followed by no
    digit. *)
Definition take_fraction (s : str) : option (option str * str) :=
  match s with
  | c :: r =>
      if (c =? chr ".")%N then
        match span_digits r with
        | ([], _) => None
        | (fd, r') => Some (Some fd, r')
        end
      else Some (None, s)
  | [] => Some (None, [])
  end.

(** The optional exponent [[eE][+-]?digits]. *)
Definition take_exponent (s : str) : option (option Z * str) :=
  match s with
  | c :: r =>
      if ((c =? chr "e") || (c =? chr "E"))%N then
        let (negative, r') :=
          match r with
          | sgn :: t =>
              if (sgn =? chr "-")%N then (true, t)
              else if (sgn =? chr "+")%N then (false, t)
              else (false, r)
          | [] => (false, [])
          end in
        match span_digits r' with
        | ([], _) => None
        | (ed, rest) =>
            Some (Some (if negative then (- digits_value ed)%Z else digits_value ed), rest)
        end
      else Some (None, s)
  | [] => Some (None, [])
  end.

(** A whole word read as a JSON number: an optional minus sign, an
    integer part without superfluous leading zero, an optional fraction
    and an optional exponent.  It is an [int] when it has neither fraction
    nor exponent, else a [float]. *)
Definition parse_number (w : str) : option pyval :=
  let (negative, r0) :=
    match w with
    | c :: r => if (c =? chr "-")%N then (true, r) else (false, w)
    | [] => (false, [])
    end in
  let sign := fun z : Z => if negative then (- z)%Z else z in
  let (ip, r1) := span_digits r0 in
  match ip with
  | [] => None
  | d0 :: ds =>
      if (d0 =? chr "0")%N && negb (match ds with [] => true | _ => false end)
      then None
      else
        match take_fraction r1 with
        | None => None
        | Some (fd, r2) =>
            match take_exponent r2 with
            | None => None
            | Some (_, _ :: _) => None
            | Some (ex, []) =>
                match fd, ex with
                | None, None => Some (PInt (sign (digits_value ip)))
                | _, _ =>
                    let fdigits := match fd with Some d => d | None => [] end in
                    let e := match ex with Some e => e | None => 0%Z end in
                    Some (PFloat (FDec (sign (digits_value (ip ++ fdigits)))
                                       (e - Z.of_nat (List.length fdigits))))
                end
            end
        end
  end.

Definition classify_word (w : str) : option pyval :=
  if str_eqb w (py "null") then Some PNone
  else if str_eqb w (py "true") then Some (PBool true)
  else if str_eqb w (py "false") then Some (PBool false)
  else if str_eqb w (py "NaN") then Some (PFloat FNaN)
  else if str_eqb w (py "Infinity") then Some (PFloat (FInf false))
  else if str_eqb w (py "-Infinity") then Some (PFloat (FInf true))
  else parse_number w.

(** *** The document grammar *)

(** An open container: an array with the elements read so far (last
    first), or an object with its members and the key whose value is being
    read. *)
Inductive frame : Type :=
| FArr (items : list pyval)
| FObj (members : pydict) (key : str).

Inductive pstate : Type :=
| SValue (stk : list frame)
| SArrStart (stk : list frame)
| SObjStart (stk : list frame)
| SKey (members : pydict) (stk : list frame)
| SColon (members : pydict) (key : str) (stk : list frame)
| SAfterArr (items : list pyval) (stk : list frame)
| SAfterObj (members : pydict) (stk : list frame)
| SDone (v : pyval).

(** A value is complete: attach it to the innermost open container. *)
Definition reduce (v : pyval) (stk : list frame) : pstate :=
  match stk with
  | [] => SDone v
  | FArr items :: stk' => SAfterArr (v :: items) stk'
  | FObj members key :: stk' => SAfterObj (dict_set members key v) stk'
  end.

Definition start_value (t : token) (stk : list frame) : option pstate :=
  match t with
  | TLBracket => Some (SArrStart stk)
  | TLBrace => Some (SObjStart stk)
  | TString s => Some (reduce (PStr s) stk)
  | TWord w => option_map (fun v => reduce v stk) (classify_word w)
  | _ => None
  end.

Definition parse_step (st : pstate) (t : token) : option pstate :=
  match st with
  | SValue stk => start_value t stk
  | SArrStart stk =>
      match t with
      | TRBracket => Some (reduce (PList []) stk)
      | _ => start_value t (FArr [] :: stk)
      end
  | SObjStart stk =>
      match t with
      | TRBrace => Some (reduce (PDict []) stk)
      | TString k => Some (SColon [] k stk)
      | _ => None
      end
  | SKey members stk =>
      match t with
      | TString k => Some (SColon members k stk)
      | _ => None
      end
  | SColon members k stk =>
      match t with
      | TColon => Some (SValue (FObj members k :: stk))
      | _ => None
      end
  | SAfterArr items stk =>
      match t with
      | TComma => Some (SValue (FArr items :: stk))
      | TRBracket => Some (reduce (PList (rev items)) stk)
      | _ => None
      end
  | SAfterObj members stk =>
      match t with
      | TComma => Some (SKey members stk)
      | TRBrace => Some (reduce (PDict members) stk)
      | _ => None
      end
  | SDone _ => None
  end.

Fixpoint parse (toks : list token) (st : pstate) : option pyval :=
  match toks with
  | [] => match st with SDone v => Some v | _ => None end
  | t :: toks' =>
      match parse_step st t with
      | Some st' => parse toks' st'
      | None => None
      end
  end.

(** [s.startswith('\ufeff')] *)
Definition has_bom (s : str) : bool :=
  match s with
  | c :: _ => (c =? 0xFEFF)%N
  | [] => false
  end.

(** [json.loads] on a [str]; [None] is a [JSONDecodeError].  A leading
    byte order mark is refused. *)
Definition decode (s : str) : option pyval :=
  if has_bom s then None
  else
    match lex s with
    | Some toks => parse toks (SValue [])
    | None => None
    end.

(** [json.loads(v)].  The message of the [JSONDecodeError] is left out:
    both callers discard it. *)
Definition loads (v : pyval) : result pyval :=
  match v with
  | PStr s =>
      match decode s with
      | Some x => Ok x
      | None => Raise (Exn JSONDecodeError (py "Expecting value"))
      end
  | _ =>
      Raise (Exn TypeError
                 (py "the JSON object must be str, bytes or bytearray, not "
                  ++ type_name v))
  end.

End Json.

(** A source literal written with ['] where the text has a double quote. *)
Definition pyq (s : string) : str :=
  map (fun c => if (c =? chr "'")%N then Json.quote else c) (py s).
Arguments pyq s%_string.



(** ** [os.path.basename] (posixpath) *)

(** [s.rfind(c)]: the index of the last occurrence of [c], or [-1]. *)
Fixpoint rfind (s : str) (c : N) : Z :=
  match s with
  | [] => (-1)%Z
  | x :: s' =>
      let i := rfind s' c in
      if (0 <=? i)%Z then (i + 1)%Z
      else if (x =? c)%N then 0%Z else (-1)%Z
  end.

(** [s[i:]] for [i >= 0] *)
Definition slice_from (s : str) (i : Z) : str := skipn (Z.to_nat i) s.

(** [i = p.rfind('/') + 1; return p[i:]], the [basename] of [posixpath],
    which is [os.path] where Lambda runs. *)
Definition basename (p : str) : str :=
  let i := (rfind p (chr "/") + 1)%Z in
  slice_from p i.

(* ================================================================== *)
(** * The outside world *)
(* ================================================================== *)

(** ** Results and effects *)

Definition rbind {A B : Type} (r : result A) (f : A -> result B) : result B :=
  match r with
  | Ok a => f a
  | Raise e => Raise e
  end.

(** [try: r  except classes as exc: handler exc] on a computation without
    effects. *)
Definition rtry {A : Type} (r : result A) (classes : list exc_class)
           (handler : exn -> result A) : result A :=
  match r with
  | Ok a => Ok a
  | Raise e => if isinstance e classes then handler e else Raise e
  end.

(** The calls that leave the process: what was asked of S3 and of the
    language model. *)
Inductive effect : Type :=
| PutObject (Bucket Key : str) (Body : bytes) (ContentType : str)
| GeneratePresignedUrl (Bucket Key : str) (ExpiresIn : Z)
| ResponsesCreate (model : str) (input : list pyval) (max_output_tokens : Z)
| ChatCompletionsCreate (model : str) (messages : list pyval) (max_tokens : Z).

(** A computation: its result, or the exception it raises, and the calls it
    made up to there, in order. *)
Definition M (A : Type) : Type := (result A * list effect)%type.

Definition ret {A : Type} (a : A) : M A := (Ok a, []).

Definition raise {A : Type} (e : exn) : M A := (Raise e, []).

Definition lift {A : Type} (r : result A) : M A := (r, []).

(** A call on a collaborator: it is recorded, and answers [r]. *)
Definition perform {A : Type} (ev : effect) (r : result A) : M A := (r, [ev]).

Definition bind {A B : Type} (m : M A) (f : A -> M B) : M B :=
  match m with
  | (Ok a, t) => let (r, t') := f a in (r, t ++ t')
  | (Raise e, t) => (Raise e, t)
  end.

(** [try: m  except classes as exc: handler exc] *)
Definition try_except {A : Type} (m : M A) (classes : list exc_class)
           (handler : exn -> M A) : M A :=
  match m with
  | (Ok a, t) => (Ok a, t)
  | (Raise e, t) =>
      if isinstance e classes then let (r, t') := handler e in (r, t ++ t')
      else (Raise e, t)
  end.

Declare Scope py_scope.
Delimit Scope py_scope with py_scope.
Notation "x <- m ;; k" := (bind m (fun x => k))
  (at level 61, m at next level, right associativity) : py_scope.
Notation "'let?' x := r 'in' k" := (rbind r (fun x => k))
  (at level 10, x name, r at level 100, k at level 200) : py_scope.
Local Open Scope py_scope.

(** ** Collaborators *)

(** The S3 client: each operation answers or raises. *)
Record s3_client : Type := {
  put_object : str -> str -> bytes -> str -> result unit;
  generate_presigned_url : str -> str -> Z -> result str
}.

(** What the code reads of a completion.  An absent attribute is [None]. *)
Record responses_completion : Type := { output_text : option pyval }.

Record chat_message : Type := { content : option pyval }.

Record chat_completion : Type := { choices : list chat_message }.

(** The OpenAI client: [responses_create] is [None] when the client has no
    usable [responses.create], [chat_completions_create] when it has no
    [chat.completions]. *)
Record openai_client : Type := {
  responses_create : option (str -> list pyval -> Z -> result responses_completion);
  chat_completions_create : option (str -> list pyval -> Z -> result chat_completion)
}.

(** Everything a run of the handler depends on besides the event. *)
Record World : Type := {
  (** [os.getenv] of the three variables *)
  env_OPENAI_MODEL : option str;
  env_S3_BUCKET : option str;
  env_OPENAI_API_KEY : option str;
  (** [None] when [import boto3] failed, else what [boto3.client("s3")]
      gives *)
  boto3_client_s3 : option (result s3_client);
  (** [int(time.time())] *)
  clock : Z;
  (** the first component of [mimetypes.guess_type] *)
  guess_type : str -> option str;
  (** what [openai.OpenAI(api_key=...)] gives *)
  openai_OpenAI : openai_client
}.

Definition truthy_env (v : option str) : bool :=
  match v with
  | Some (_ :: _) => true
  | _ => false
  end.

Definition env_value (v : option str) : str :=
  match v with
  | Some s => s
  | None => []
  end.

(* ================================================================== *)
(** * backend/utils/s3_helper.py *)
(* ================================================================== *)

Definition _get_s3_client (w : World) : result s3_client :=
  match boto3_client_s3 w with
  | None =>
      Raise (Exn RuntimeError
                 (py "boto3 is required to upload media. Install it with 'pip3 install boto3'."))
  | Some client => client
  end.

Record S3Object : Type := {
  bucket : str;
  key : str;
  presigned_url : str
}.

Definition _guess_content_type (w : World) (filename : pyval) : result str :=
  match filename with
  | PStr f =>
      match guess_type w f with
      | Some (c :: t) => Ok (c :: t)
      | _ => Ok (py "application/octet-stream")
      end
  | _ =>
      Raise (Exn TypeError
                 (py "expected str, bytes or os.PathLike object, not " ++ type_name filename))
  end.

(** [os.path.basename] of a value. *)
Definition os_path_basename (filename : pyval) : result str :=
  match filename with
  | PStr f => Ok (basename f)
  | _ =>
      Raise (Exn TypeError
                 (py "expected str, bytes or os.PathLike object, not " ++ type_name filename))
  end.

Definition upload_media_from_base64 (w : World) (bucket : str)
           (base64_payload filename : pyval) : M S3Object :=
  s3 <- lift (_get_s3_client w) ;;
  binary_data <- lift (rtry (Base64.b64decode base64_payload)
                            [ValueError; BinasciiError]
                            (fun _ => Raise (Exn ValueError (py "Invalid base64 payload provided")))) ;;
  content_type <- lift (_guess_content_type w filename) ;;
  let timestamp := clock w in
  name <- lift (os_path_basename filename) ;;
  let key := py "uploads/" ++ int_str timestamp ++ py "-" ++ name in
  _ <- perform (PutObject bucket key binary_data content_type)
               (put_object s3 bucket key binary_data content_type) ;;
  presigned_url <- perform (GeneratePresignedUrl bucket key 3600)
                           (generate_presigned_url s3 bucket key 3600) ;;
  ret {| bucket := bucket; key := key; presigned_url := presigned_url |}.

(** The object key of an upload of [filename] made at the world's clock. *)
Definition expected_key (w : World) (filename : str) : str :=
  py "uploads/" ++ int_str (clock w) ++ py "-" ++ basename filename.

(* ================================================================== *)
(** * backend/lambda_function.py *)
(* ================================================================== *)

(** [OPENAI_MODEL = os.getenv("OPENAI_MODEL", "gpt-4o-mini")] *)
Definition OPENAI_MODEL (w : World) : str :=
  match env_OPENAI_MODEL w with
  | Some m => m
  | None => py "gpt-4o-mini"
  end.

(** [S3_BUCKET = os.getenv("S3_BUCKET")] *)
Definition S3_BUCKET (w : World) : option str := env_S3_BUCKET w.

Definition _init_openai_client (w : World) : result openai_client :=
  if negb (truthy_env (env_OPENAI_API_KEY w)) then
    Raise (Exn RuntimeError (py "OPENAI_API_KEY environment variable is not set"))
  else Ok (openai_OpenAI w).

(** [v.get(k, default)]: only a [dict] has the method. *)
Definition py_get (v : pyval) (k : str) (default : pyval) : result pyval :=
  match v with
  | PDict d => Ok (dict_get d k default)
  | _ => Raise (no_attribute v "get")
  end.

(** The fields are annotated [Optional[str]], but hold whatever the payload
    holds. *)
Record DiagnosticRequest : Type := {
  description : str;
  media_base64 : pyval;
  media_filename : pyval
}.

(** Lines 56-58: the body of the event, decoded when the event says it is
    base64. *)
Definition event_body (event : pydict) : result pyval :=
  let body := py_or (dict_get event (py "body") PNone) (PStr (py "{}")) in
  if truthy (dict_get event (py "isBase64Encoded") PNone) then
    let? raw := Base64.b64decode body in
    let? text := Utf8.decode raw in
    Ok (PStr text)
  else Ok body.

Definition from_event (event : pydict) : result DiagnosticRequest :=
  let? payload :=
    rtry (let? body := event_body event in
          Json.loads body)
         [ValueError; JSONDecodeError]
         (fun _ => Raise (Exn ValueError (py "Request body is not valid JSON"))) in
  let? field := py_get payload (py "description") (PStr []) in
  let? description := py_strip field in
  if negb (truthy (PStr description)) then
    Raise (Exn ValueError (py "Description is required"))
  else
    let? media := py_get payload (py "media") PNone in
    let? filename := py_get payload (py "filename") PNone in
    Ok {| description := description;
          media_base64 := media;
          media_filename := filename |}.

Record DiagnosticResponse : Type := {
  summary : pyval;
  potential_causes : list pyval;
  safety_checks : list pyval;
  recommended_actions : list pyval
}.

Definition as_dict (self : DiagnosticResponse) : pyval :=
  PDict [ (py "summary", summary self);
          (py "potential_causes", PList (potential_causes self));
          (py "safety_checks", PList (safety_checks self));
          (py "recommended_actions", PList (recommended_actions self)) ].

Definition system_instruction : str :=
  py "You are an experienced automotive mechanic. Analyse the user's description and the provided media to produce a concise diagnostic report.".

Definition text_segment (request : DiagnosticRequest) : pyval :=
  PDict [ (py "type", PStr (py "text"));
          (py "text", PStr (py "User description: " ++ description request)) ].

Definition image_segment (media_object : S3Object) : pyval :=
  PDict [ (py "type", PStr (py "input_image"));
          (py "image_url", PDict [ (py "url", PStr (presigned_url media_object)) ]) ].

(** An [S3Object] is always true, so [if media_object:] tests for [None]. *)
Definition _build_messages (request : DiagnosticRequest)
           (media_object : option S3Object) : list pyval :=
  let user_content := [ text_segment request ] in
  let user_content :=
    match media_object with
    | Some o => user_content ++ [ image_segment o ]
    | None => user_content
    end in
  [ PDict [ (py "role", PStr (py "system"));
            (py "content", PStr system_instruction) ];
    PDict [ (py "role", PStr (py "user"));
            (py "content", PList user_content) ] ].

(** [[part.get("text", "") for part in content if isinstance(part, dict)]] *)
Fixpoint text_parts (content : list pyval) : list pyval :=
  match content with
  | [] => []
  | PDict d :: rest => dict_get d (py "text") (PStr []) :: text_parts rest
  | _ :: rest => text_parts rest
  end.

(** ["".join(items)]: every item must be a [str]. *)
Fixpoint join_from (i : Z) (items : list pyval) : result str :=
  match items with
  | [] => Ok []
  | PStr s :: rest => let? t := join_from (i + 1) rest in Ok (s ++ t)
  | v :: _ =>
      Raise (Exn TypeError
                 (py "sequence item " ++ int_str i ++ py ": expected str instance, "
                  ++ type_name v ++ py " found"))
  end.

Definition str_join (items : list pyval) : result str := join_from 0 items.

(** Lines 148-154: the text of a chat completion. *)
Definition completion_text (completion : chat_completion) : result pyval :=
  match choices completion with
  | [] => Ok (PStr [])
  | choice :: _ =>
      let content := match content choice with Some c => c | None => PStr [] end in
      match content with
      | PList parts => let? t := str_join (text_parts parts) in Ok (PStr t)
      | _ => Ok (py_or content (PStr []))
      end
  end.

(** What one segment adds to the joined text: the [text] entry of a [dict],
    whatever its type; nothing for a [dict] without the entry and for a
    segment that is not a [dict]. *)
Definition segment_text (part : pyval) : str :=
  match part with
  | PDict d =>
      match dict_get d (py "text") (PStr []) with
      | PStr s => s
      | _ => []
      end
  | _ => []
  end.

(** A segment the join accepts: its [text] entry, if it is a [dict] and has
    one, is a string. *)
Definition text_entry_is_str (part : pyval) : bool :=
  match part with
  | PDict d =>
      match dict_get d (py "text") (PStr []) with
      | PStr _ => true
      | _ => false
      end
  | _ => true
  end.

(** A segment whose [type] entry is ["text"]. *)
Definition is_text_typed (d : pydict) : bool :=
  match dict_lookup d (py "type") with
  | Some (PStr t) => str_eqb t (py "text")
  | _ => false
  end.

(** The extraction in the words of the specification: the text of the
    text-typed segments only, in order. *)
Fixpoint text_of_text_typed_segments (content : list pyval) : str :=
  match content with
  | [] => []
  | PDict d :: rest =>
      (if is_text_typed d then segment_text (PDict d) else [])
      ++ text_of_text_typed_segments rest
  | _ :: rest => text_of_text_typed_segments rest
  end.

(** Lines 160-175: the reply read as a JSON document, or kept as a plain
    summary. *)
Definition normalize (text : str) : result DiagnosticResponse :=
  rtry (let? parsed := Json.loads (PStr text) in
        let? s := py_get parsed (py "summary") (PStr text) in
        let? pc := py_get parsed (py "potential_causes") (PList []) in
        let? pc := py_list pc in
        let? sc := py_get parsed (py "safety_checks") (PList []) in
        let? sc := py_list sc in
        let? ra := py_get parsed (py "recommended_actions") (PList []) in
        let? ra := py_list ra in
        Ok {| summary := s;
              potential_causes := pc;
              safety_checks := sc;
              recommended_actions := ra |})
       [JSONDecodeError]
       (fun _ => Ok {| summary := PStr text;
                       potential_causes := [];
                       safety_checks := [];
                       recommended_actions := [] |}).

(** Lines 125-154: the text taken from the model's reply, through
    [responses.create] when the client has it and through
    [chat.completions.create] otherwise. *)
Definition model_text (w : World) (messages : list pyval) : M pyval :=
  client <- lift (_init_openai_client w) ;;
  match responses_create client with
  | Some create =>
      completion <- perform (ResponsesCreate (OPENAI_MODEL w) messages 800)
                            (create (OPENAI_MODEL w) messages 800%Z) ;;
      ret (py_or (match output_text completion with Some t => t | None => PStr [] end)
                 (PStr []))
  | None =>
      match chat_completions_create client with
      | None =>
          raise (Exn RuntimeError
                     (py "OpenAI client does not support responses or chat completions APIs"))
      | Some create =>
          completion <- perform (ChatCompletionsCreate (OPENAI_MODEL w) messages 800)
                                (create (OPENAI_MODEL w) messages 800%Z) ;;
          lift (completion_text completion)
      end
  end.

Definition _invoke_openai (w : World) (messages : list pyval) : M DiagnosticResponse :=
  text <- model_text w messages ;;
  text <- lift (py_strip text) ;;
  if negb (truthy (PStr text)) then
    raise (Exn RuntimeError (py "OpenAI returned an empty response"))
  else lift (normalize text).

(** The text [json.dumps] makes of a document, kept as the document. *)
Inductive json_text : Type := json_dumps (document : pyval).

Record http_response : Type := {
  statusCode : Z;
  headers : pydict;
  body : json_text
}.

Definition json_headers : pydict :=
  [ (py "Content-Type", PStr (py "application/json")) ].

Definition success (response : DiagnosticResponse) : http_response :=
  {| statusCode := 200;
     headers := json_headers;
     body := json_dumps (as_dict response) |}.

Definition failure (exc : exn) : http_response :=
  {| statusCode := 400;
     headers := json_headers;
     body := json_dumps (PDict [ (py "error", PStr (exc_message exc)) ]) |}.

(** Lines 184-194: the media, stored when the request carries both a payload
    and a file name. *)
Definition store_media (w : World) (request : DiagnosticRequest) : M (option S3Object) :=
  if truthy (media_base64 request) && truthy (media_filename request) then
    if negb (truthy_env (S3_BUCKET w)) then
      raise (Exn RuntimeError (py "S3_BUCKET environment variable is not set"))
    else
      o <- upload_media_from_base64 w (env_value (S3_BUCKET w))
             (media_base64 request) (media_filename request) ;;
      ret (Some o)
  else ret None.

(** The exception classes of the handler's [except] clause. *)
Definition caught : list exc_class := [ValueError; RuntimeError; BotoCoreError].

(** The result is what the handler returns; a raised exception is one that
    reaches the Lambda runtime. *)
Definition lambda_handler (w : World) (event : pydict) : M http_response :=
  try_except
    (request <- lift (from_event event) ;;
     media_object <- store_media w request ;;
     let messages := _build_messages request media_object in
     response <- _invoke_openai w messages ;;
     ret (success response))
    caught
    (fun exc => ret (failure exc)).

(* ================================================================== *)
(** * Sample worlds and events *)
(* ================================================================== *)

Module Sample.

(** An S3 client whose operations succeed. *)
Definition s3_up : s3_client :=
  {| put_object := fun _ _ _ _ => Ok tt;
     generate_presigned_url :=
       fun b k _ => Ok (py "https://s3.example/" ++ b ++ py "/" ++ k) |}.

(** An S3 client whose service refuses the write: botocore raises
    [ClientError]. *)
Definition s3_denied : s3_client :=
  {| put_object := fun _ _ _ _ =>
       Raise (Exn ClientError
                  (py "An error occurred (AccessDenied) when calling the PutObject operation: Access Denied"));
     generate_presigned_url :=
       fun b k _ => Ok (py "https://s3.example/" ++ b ++ py "/" ++ k) |}.

(** An S3 client that cannot reach the service: botocore raises a
    [BotoCoreError]. *)
Definition s3_unreachable : s3_client :=
  {| put_object := fun _ _ _ _ =>
       Raise (Exn EndpointConnectionError
                  (py "Could not connect to the endpoint URL"));
     generate_presigned_url :=
       fun b k _ => Ok (py "https://s3.example/" ++ b ++ py "/" ++ k) |}.

(** A client with the responses API, answering [reply] to everything. *)
Definition responses_client (reply : str) : openai_client :=
  {| responses_create := Some (fun _ _ _ => Ok {| output_text := Some (PStr reply) |});
     chat_completions_create := None |}.

(** A client with only chat completions, answering with [content]. *)
Definition chat_client (content : pyval) : openai_client :=
  {| responses_create := None;
     chat_completions_create :=
       Some (fun _ _ _ => Ok {| choices := [ {| content := Some content |} ] |}) |}.

Definition world (s3 : s3_client) (bucket : option str) (client : openai_client) : World :=
  {| env_OPENAI_MODEL := None;
     env_S3_BUCKET := bucket;
     env_OPENAI_API_KEY := Some (py "sk-test");
     boto3_client_s3 := Some (Ok s3);
     clock := 1700000000;
     guess_type := fun f => if str_eqb (basename f) (py "photo.png")
                            then Some (py "image/png") else None;
     openai_OpenAI := client |}.

Definition event_of (body : str) : pydict := [ (py "body", PStr body) ].

(** A request with a description and no media. *)
Definition plain_event : pydict :=
  event_of (pyq "{'description': 'Engine knocks when cold'}").

(** A request with a photo: the payload is the base64 of [hello]. *)
Definition photo_event : pydict :=
  event_of (pyq "{'description': 'Oil leak', 'media': 'aGVsbG8=', 'filename': 'a/b/photo.png'}").

Definition plain_request : DiagnosticRequest :=
  {| description := py "Engine knocks when cold";
     media_base64 := PNone;
     media_filename := PNone |}.

Definition photo_request : DiagnosticRequest :=
  {| description := py "Oil leak";
     media_base64 := PStr (py "aGVsbG8=");
     media_filename := PStr (py "a/b/photo.png") |}.

(** A chat completion with one choice. *)
Definition reply_of (c : pyval) : chat_completion :=
  {| choices := [ {| content := Some c |} ] |}.

(** A text segment, an image segment, a stray string and a second text
    segment. *)
Definition mixed_segments : list pyval :=
  [ PDict [ (py "type", PStr (py "text")); (py "text", PStr (py "Worn ")) ];
    PDict [ (py "type", PStr (py "input_image")); (py "image_url", PStr (py "u")) ];
    PStr (py "loose");
    PDict [ (py "type", PStr (py "text")); (py "text", PStr (py "brake pads")) ] ].

(** An image segment that carries a text entry. *)
Definition captioned_image : pyval :=
  PDict [ (py "type", PStr (py "input_image")); (py "text", PStr (py "X")) ].

End Sample.

(* ================================================================== *)
(** * backend/scripts *)
(* ================================================================== *)

(** The two command line helpers talk to AWS and to the terminal.  Their
    runs record the calls they make and what they print. *)
Module Script.

(** An exception of a script: botocore's [ClientError] with its parsed
    [response] and [str(exc)], [SystemExit] with its argument, or an
    exception of any other class. *)
Inductive exception : Type :=
| ClientErr (response : pydict) (message : str)
| SystemExit (message : str)
| Other (e : exn).

Inductive outcome (A : Type) : Type :=
| Done (a : A)
| Failed (e : exception).
Arguments Done {A} a.
Arguments Failed {A} e.

Inductive call : Type :=
| SessionClient (service region_name : str)
| HeadBucket (Bucket : str)
| CreateBucket (kwargs : pydict)
| LambdaClient
| UpdateFunctionConfiguration (FunctionName : str) (Environment : pyval)
| Print (line : str).

Definition run (A : Type) : Type := (outcome A * list call)%type.

Definition done {A : Type} (a : A) : run A := (Done a, []).

Definition fail {A : Type} (e : exception) : run A := (Failed e, []).

(** A call on AWS or on the terminal: it is recorded, and answers [r]. *)
Definition request {A : Type} (c : call) (r : outcome A) : run A := (r, [c]).

Definition then_ {A B : Type} (m : run A) (f : A -> run B) : run B :=
  match m with
  | (Done a, t) => let (r, t') := f a in (r, t ++ t')
  | (Failed e, t) => (Failed e, t)
  end.

(** [print(line)] *)
Definition print (line : str) : run unit := request (Print line) (Done tt).

(** The signs the messages start with. *)
Definition warning_sign : str := [0x26A0; 0xFE0F]%N.
Definition check_mark : str := [0x2705]%N.
Definition cross_mark : str := [0x274C]%N.

End Script.

Notation "x <~ m ;; k" := (Script.then_ m (fun x => k))
  (at level 61, m at next level, right associativity) : py_scope.

(** ** scripts/create_s3_bucket.py *)

Module CreateS3Bucket.

Import Script.

(** The S3 client of a session. *)
Record s3_api : Type := {
  head_bucket : str -> outcome unit;
  create_bucket_call : pydict -> outcome unit
}.

(** [boto3.session.Session()]: the region of the profile, if any, and the
    clients it makes. *)
Record session : Type := {
  region_name : option str;
  client_s3 : str -> outcome s3_api
}.

(** The parsed command line: [bucket], [--region] (default [us-east-1]) and
    [--acl] (default [private]). *)
Record arguments : Type := {
  arg_bucket : str;
  arg_region : str;
  arg_acl : str
}.

(** [code in {"404", "NoSuchBucket", "NotFound"}]: the code is hashed
    first, which a [list] or a [dict] refuses. *)
Definition code_in_missing (code : pyval) : outcome bool :=
  match code with
  | PStr c =>
      Done (str_eqb c (py "404") || str_eqb c (py "NoSuchBucket")
            || str_eqb c (py "NotFound"))
  | PList _ | PDict _ =>
      Failed (Other (Exn TypeError (py "unhashable type: '" ++ type_name code ++ py "'")))
  | _ => Done false
  end.

(** [code == "403"] *)
Definition code_is_403 (code : pyval) : bool :=
  match code with
  | PStr c => str_eqb c (py "403")
  | _ => false
  end.

(** [exc.response.get("Error", {}).get("Code")] *)
Definition error_code (response : pydict) : outcome pyval :=
  match py_get (dict_get response (py "Error") (PDict [])) (py "Code") PNone with
  | Ok code => Done code
  | Raise e => Failed (Other e)
  end.

Definition bucket_exists (s3_client : s3_api) (bucket_name : str) : run bool :=
  match head_bucket s3_client bucket_name with
  | Done _ => (Done true, [HeadBucket bucket_name])
  | Failed (ClientErr response message) =>
      (match error_code response with
       | Failed e => Failed e
       | Done code =>
           match code_in_missing code with
           | Failed e => Failed e
           | Done true => Done false
           | Done false =>
               if code_is_403 code then Done true
               else Failed (ClientErr response message)
           end
       end,
       [HeadBucket bucket_name])
  | Failed e => (Failed e, [HeadBucket bucket_name])
  end.

(** [region or session.region_name or "us-east-1"] *)
Definition resolve_region (region : str) (s : session) : str :=
  match region with
  | _ :: _ => region
  | [] =>
      match region_name s with
      | Some (c :: r) => c :: r
      | _ => py "us-east-1"
      end
  end.

Definition create_bucket (boto3_session : outcome session)
           (bucket_name region acl : str) : run unit :=
  s <~ (boto3_session, []) ;;
  let region := resolve_region region s in
  s3_client <~ request (SessionClient (py "s3") region) (client_s3 s region) ;;
  found <~ bucket_exists s3_client bucket_name ;;
  if found then
    print (warning_sign ++ py " Bucket '" ++ bucket_name
           ++ py "' already exists. Skipping creation.")
  else
    let create_kwargs := [ (py "Bucket", PStr bucket_name); (py "ACL", PStr acl) ] in
    let create_kwargs :=
      if negb (str_eqb region (py "us-east-1")) then
        dict_set create_kwargs (py "CreateBucketConfiguration")
                 (PDict [ (py "LocationConstraint", PStr region) ])
      else create_kwargs in
    _ <~ request (CreateBucket create_kwargs) (create_bucket_call s3_client create_kwargs) ;;
    print (check_mark ++ py " Created S3 bucket '" ++ bucket_name
           ++ py "' in region '" ++ region ++ py "'.").

(** [main], from the parsed arguments on: the exit status, or the exception
    that ends the script. *)
Definition main (boto3_session : outcome session) (args : arguments) : run Z :=
  match create_bucket boto3_session (arg_bucket args) (arg_region args) (arg_acl args) with
  | (Done _, t) => (Done 0%Z, t)
  | (Failed (ClientErr response message), t) =>
      (Done 1%Z, t ++ [Print (cross_mark ++ py " Failed to create bucket: " ++ message)])
  | (Failed e, t) => (Failed e, t)
  end.

End CreateS3Bucket.

(** ** scripts/set_openai_key.py *)

Module SetOpenAIKey.

Import Script.

(** [boto3.client("lambda")] and its one operation. *)
Record lambda_api : Type := {
  update_function_configuration : str -> pyval -> outcome unit
}.

Definition main (boto3_client_lambda : outcome lambda_api) (argv : list str) : run unit :=
  if negb (Nat.eqb (List.length argv) 2) then
    fail (SystemExit (py "Usage: python set_openai_key.py <api-key>"))
  else
    let key := nth 1 argv [] in
    let lambda_name := py "mechanic-ai-lambda" in
    client <~ request LambdaClient boto3_client_lambda ;;
    let environment :=
      PDict [ (py "Variables", PDict [ (py "OPENAI_API_KEY", PStr key) ]) ] in
    _ <~ request (UpdateFunctionConfiguration lambda_name environment)
                 (update_function_configuration client lambda_name environment) ;;
    print (check_mark ++ py " OpenAI key updated successfully in AWS Lambda.").

End SetOpenAIKey.


(** The four fields of a body of status 200. *)
Definition report_body (s : pyval) (pc sc ra : list pyval) : json_text :=
  json_dumps (PDict [ (py "summary", s);
                      (py "potential_causes", PList pc);
                      (py "safety_checks", PList sc);
                      (py "recommended_actions", PList ra) ]).

(** The conversation about a description and a picture at [url]. *)
Definition conversation_with_image (description url : str) : list pyval :=
  [ PDict [ (py "role", PStr (py "system"));
            (py "content", PStr system_instruction) ];
    PDict [ (py "role", PStr (py "user"));
            (py "content",
             PList [ PDict [ (py "type", PStr (py "text"));
                             (py "text", PStr (py "User description: " ++ description)) ];
                     PDict [ (py "type", PStr (py "input_image"));
                             (py "image_url", PDict [ (py "url", PStr url) ]) ] ]) ] ].

(* ================================================================== *)
(** * More sample worlds and events *)
(* ================================================================== *)

Module Cases.

(** An event whose body is said to be base64. *)
Definition flagged (body : str) : pydict :=
  [ (py "body", PStr body); (py "isBase64Encoded", PBool true) ].

(** The base64 of [{"description": "Oil leak"}]. *)
Definition encoded_body : str := py "eyJkZXNjcmlwdGlvbiI6ICJPaWwgbGVhayJ9".

(** An event whose body was already parsed by the caller. *)
Definition parsed_event : pydict :=
  [ (py "body", PDict [ (py "description", PStr (py "Oil leak")) ]) ].

(** A world described by its S3 side and its OpenAI side. *)
Definition world_of (key : option str) (boto3 : option (result s3_client))
           (client : openai_client) : World :=
  {| env_OPENAI_MODEL := Some (py "gpt-4o");
     env_S3_BUCKET := Some (py "garage-media");
     env_OPENAI_API_KEY := key;
     boto3_client_s3 := boto3;
     clock := 1700000000;
     guess_type := fun _ => None;
     openai_OpenAI := client |}.

(** An S3 client that writes but cannot sign. *)
Definition s3_unsigned : s3_client :=
  {| put_object := fun _ _ _ _ => Ok tt;
     generate_presigned_url :=
       fun _ _ _ => Raise (Exn NoCredentialsError (py "Unable to locate credentials")) |}.

(** A client whose responses API fails with an error of the openai
    package. *)
Definition failing_client : openai_client :=
  {| responses_create :=
       Some (fun _ _ _ => Raise (Exn OpenAIError (py "Connection error.")));
     chat_completions_create := None |}.

(** A client with neither API. *)
Definition bare_client : openai_client :=
  {| responses_create := None; chat_completions_create := None |}.

(** A client with both APIs, answering differently. *)
Definition both_client : openai_client :=
  {| responses_create :=
       Some (fun _ _ _ => Ok {| output_text := Some (PStr (py "from responses")) |});
     chat_completions_create :=
       Some (fun _ _ _ =>
               Ok {| choices := [ {| content := Some (PStr (py "from chat")) |} ] |}) |}.

(** A request whose media is a number. *)
Definition numeric_media_request : DiagnosticRequest :=
  {| description := py "Oil leak";
     media_base64 := PInt 7;
     media_filename := PStr (py "photo.png") |}.

(** The object stored for the request with a photo. *)
Definition photo_object : S3Object :=
  {| bucket := py "garage-media";
     key := py "uploads/1700000000-photo.png";
     presigned_url :=
       py "https://s3.example/garage-media/uploads/1700000000-photo.png" |}.

(** An S3 client of the provisioning script: [head_bucket] answers
    [head], the creation succeeds. *)
Definition provisioning_api (head : Script.outcome unit) : CreateS3Bucket.s3_api :=
  {| CreateS3Bucket.head_bucket := fun _ => head;
     CreateS3Bucket.create_bucket_call := fun _ => Script.Done tt |}.

(** A session without region of its own, whose clients are as above. *)
Definition provisioning_session (head : Script.outcome unit) : CreateS3Bucket.session :=
  {| CreateS3Bucket.region_name := None;
     CreateS3Bucket.client_s3 := fun _ => Script.Done (provisioning_api head) |}.

(** The error response of S3 with a given code. *)
Definition error_response (code : str) : pydict :=
  [ (py "Error", PDict [ (py "Code", PStr code); (py "Message", PStr (py "refused")) ]) ].

Definition refusal (code : str) : Script.outcome unit :=
  Script.Failed (Script.ClientErr (error_response code)
                                  (py "An error occurred (" ++ code
                                   ++ py ") when calling the HeadBucket operation: refused")).

(** [garage-media --region eu-west-1] *)
Definition arguments_eu : CreateS3Bucket.arguments :=
  {| CreateS3Bucket.arg_bucket := py "garage-media";
     CreateS3Bucket.arg_region := py "eu-west-1";
     CreateS3Bucket.arg_acl := py "private" |}.

(** A Lambda client whose update succeeds. *)
Definition lambda_up : SetOpenAIKey.lambda_api :=
  {| SetOpenAIKey.update_function_configuration := fun _ _ => Script.Done tt |}.

End Cases.

(* ================================================================== *)
(** * Strings *)
(* ================================================================== *)

Unset Implicit Arguments.

(** Closed facts about concrete runs are settled by evaluation. *)
Ltac evaluate := vm_compute; reflexivity.

Lemma str_eqb_eq (a b : str) : str_eqb a b = true <-> a = b.
Proof.
  revert b; induction a as [|x a IH]; intros [|y b]; simpl; split;
    try congruence; try reflexivity.
  - intros H. apply andb_true_iff in H as [Hx Hab].
    apply N.eqb_eq in Hx. apply IH in Hab. congruence.
  - intros H. injection H as -> ->. rewrite N.eqb_refl. simpl.
    apply IH. reflexivity.
Qed.

Lemma str_eqb_refl (a : str) : str_eqb a a = true.
Proof. apply str_eqb_eq. reflexivity. Qed.

Section Strip.

Lemma lstrip_blank (s : str) : lstrip s = [] <-> forallb isspace s = true.
Proof.
  induction s as [|c s IH]; simpl.
  - tauto.
  - destruct (isspace c); simpl.
    + exact IH.
    + split; discriminate.
Qed.

(** What [lstrip] leaves starts with a character that is not a space. *)
Lemma lstrip_head (s : str) (c : N) (t : str) :
  lstrip s = c :: t -> isspace c = false.
Proof.
  induction s as [|x s IH]; simpl.
  - discriminate.
  - destruct (isspace x) eqn:Hx.
    + exact IH.
    + intros H. injection H as <- _. exact Hx.
Qed.

Lemma lstrip_idempotent (s : str) : lstrip (lstrip s) = lstrip s.
Proof.
  destruct (lstrip s) as [|c t] eqn:E.
  - reflexivity.
  - simpl. rewrite (lstrip_head _ _ _ E). reflexivity.
Qed.




Lemma forallb_rev (f : N -> bool) (s : str) : forallb f (rev s) = forallb f s.
Proof.
  induction s as [|c s IH]; simpl.
  - reflexivity.
  - rewrite forallb_app, IH. simpl. rewrite andb_true_r. apply andb_comm.
Qed.

Lemma rstrip_blank (s : str) : rstrip s = [] <-> forallb isspace s = true.
Proof.
  unfold rstrip. rewrite <- (forallb_rev isspace s), <- lstrip_blank.
  split; intros H.
  - apply (f_equal (@rev N)) in H. rewrite rev_involutive in H. exact H.
  - rewrite H. reflexivity.
Qed.

(** A string strips to nothing exactly when it is empty or all white
    space. *)
Lemma strip_blank (s : str) : strip s = [] <-> forallb isspace s = true.
Proof.
  unfold strip. rewrite rstrip_blank. split; intros H.
  - apply lstrip_blank. rewrite <- lstrip_idempotent. apply lstrip_blank. exact H.
  - apply lstrip_blank in H. rewrite H. reflexivity.
Qed.


End Strip.

Section Basename.

Lemma rfind_lower (s : str) (c : N) : (-1 <= rfind s c)%Z.
Proof.
  induction s as [|x s IH]; simpl.
  - lia.
  - destruct (0 <=? rfind s c)%Z eqn:E.
    + apply Z.leb_le in E. lia.
    + destruct (x =? c)%N; lia.
Qed.

Lemma rfind_absent (s : str) (c : N) : (rfind s c < 0)%Z -> ~ In c s.
Proof.
  induction s as [|x s IH]; simpl.
  - tauto.
  - destruct (0 <=? rfind s c)%Z eqn:E.
    + apply Z.leb_le in E. lia.
    + apply Z.leb_gt in E. destruct (x =? c)%N eqn:Hx.
      * lia.
      * apply N.eqb_neq in Hx. intros _ [H | H]; [congruence | exact (IH E H)].
Qed.

Lemma rfind_present (s : str) (c : N) : (0 <= rfind s c)%Z -> In c s.
Proof.
  induction s as [|x s IH]; simpl.
  - lia.
  - destruct (0 <=? rfind s c)%Z eqn:E.
    + apply Z.leb_le in E. intros _. right. exact (IH E).
    + destruct (x =? c)%N eqn:Hx.
      * apply N.eqb_eq in Hx. intros _. left. exact Hx.
      * lia.
Qed.

Lemma slice_rfind_cons (x : N) (p : str) (c : N) :
  slice_from (x :: p) (rfind (x :: p) c + 1) =
  if (0 <=? rfind p c)%Z || (x =? c)%N then slice_from p (rfind p c + 1) else x :: p.
Proof.
  unfold slice_from. cbn [rfind].
  pose proof (rfind_lower p c) as Hlow.
  destruct (0 <=? rfind p c)%Z eqn:E; cbn [orb].
  - apply Z.leb_le in E.
    replace (Z.to_nat (rfind p c + 1 + 1)) with (S (Z.to_nat (rfind p c + 1))) by lia.
    reflexivity.
  - apply Z.leb_gt in E.
    assert (rfind p c = -1)%Z as -> by lia.
    destruct (x =? c)%N; reflexivity.
Qed.

(** [basename] read from the left: beyond a separator, start again. *)
Lemma basename_cons (x : N) (p : str) :
  basename (x :: p) =
  if (0 <=? rfind p (chr "/"))%Z || (x =? chr "/")%N then basename p else x :: p.
Proof. apply slice_rfind_cons. Qed.

Lemma basename_no_separator (p : str) : ~ In (chr "/") (basename p).
Proof.
  induction p as [|x p IH].
  - simpl. tauto.
  - rewrite basename_cons.
    destruct (0 <=? rfind p (chr "/"))%Z eqn:E; cbn [orb].
    + exact IH.
    + destruct (x =? chr "/")%N eqn:Hx.
      * exact IH.
      * apply Z.leb_gt in E. apply N.eqb_neq in Hx.
        intros [H | H]; [congruence | exact (rfind_absent _ _ E H)].
Qed.

(** The path is its directory part, empty or ending in a separator,
    followed by its base name. *)
Lemma basename_split (p : str) :
  exists dir : str,
    p = dir ++ basename p /\ (dir = [] \/ exists d, dir = d ++ [chr "/"]).
Proof.
  induction p as [|x p (dir & Hp & Hdir)].
  - exists []. split; [reflexivity | left; reflexivity].
  - rewrite basename_cons.
    destruct (0 <=? rfind p (chr "/"))%Z eqn:E; cbn [orb].
    + exists (x :: dir). split.
      * simpl. f_equal. exact Hp.
      * right. destruct Hdir as [-> | (d & ->)].
        -- exfalso. simpl in Hp. apply Z.leb_le in E.
           apply (basename_no_separator p). rewrite <- Hp.
           exact (rfind_present _ _ E).
        -- exists (x :: d). reflexivity.
    + destruct (x =? chr "/")%N eqn:Hx.
      * apply N.eqb_eq in Hx. subst x. exists [chr "/"]. split.
        -- apply Z.leb_gt in E. unfold basename, slice_from.
           pose proof (rfind_lower p (chr "/")).
           assert (rfind p (chr "/") = -1)%Z as -> by lia. reflexivity.
        -- right. exists []. reflexivity.
      * exists []. split; [reflexivity | left; reflexivity].
Qed.

Lemma basename_no_directory (p : str) : ~ In (chr "/") p -> basename p = p.
Proof.
  intros H. destruct (basename_split p) as (dir & Hp & [-> | (d & ->)]).
  - symmetry. exact Hp.
  - exfalso. apply H. rewrite Hp. apply in_or_app. left.
    apply in_or_app. right. left. reflexivity.
Qed.

End Basename.

(* ================================================================== *)
(** * The library functions on examples *)
(* ================================================================== *)

Example b64decode_padded :
  Base64.b64decode (PStr (py "aGVsbG8=")) = Ok (py "hello").
Proof. evaluate. Qed.

Example b64decode_skips_line_breaks :
  Base64.b64decode (PStr [chr "a"; chr "G"; 0x0A; chr "k"; chr "="]%N) = Ok (py "hi").
Proof. evaluate. Qed.

Example b64decode_unpadded :
  Base64.b64decode (PStr (py "aGVsbG8"))
  = Raise (Exn BinasciiError (py "Incorrect padding")).
Proof. evaluate. Qed.

Example b64decode_not_a_string :
  exists msg, Base64.b64decode (PInt 5) = Raise (Exn TypeError msg).
Proof. eexists. reflexivity. Qed.

Example utf8_euro_sign : Utf8.decode [0xE2; 0x82; 0xAC]%N = Ok [0x20AC%N].
Proof. evaluate. Qed.

Example utf8_overlong_refused : Utf8.decode_points [0xC0; 0x80]%N = None.
Proof. evaluate. Qed.

Example json_nested :
  Json.decode (pyq " {'a': [1, -2.50e3, true, null], 'b': {'c': 'd'}} ")
  = Some (PDict [ (py "a", PList [PInt 1; PFloat (FDec (-250) 1); PBool true; PNone]);
                  (py "b", PDict [ (py "c", PStr (py "d")) ]) ]).
Proof. evaluate. Qed.

Example json_last_duplicate_wins :
  Json.decode (pyq "{'k': 1, 'j': 2, 'k': 3}")
  = Some (PDict [ (py "k", PInt 3); (py "j", PInt 2) ]).
Proof. evaluate. Qed.

Example json_escapes :
  Json.decode (pyq "'a\n\u00e9\ud83d\ude00'")
  = Some (PStr [chr "a"; 0x0A; 0xE9; 0x1F600]%N).
Proof. evaluate. Qed.

Example json_refused :
  map Json.decode
      [ py ""; py "[1,]"; pyq "{'a':1,}"; py "01"; py "1."; py "-"; py "1 2";
        pyq "'open"; py "nul"; pyq "{'a' 1}"; pyq "{1: 2}"; py "T" ]
  = [ None; None; None; None; None; None; None; None; None; None; None; None ].
Proof. evaluate. Qed.

Example strip_both_ends :
  strip ([0x20; 0x09; 0xA0] ++ py "a b" ++ [0x0A; 0x3000])%N = py "a b".
Proof. evaluate. Qed.

Example basename_of_path : basename (py "a/b/photo.png") = py "photo.png".
Proof. evaluate. Qed.

Example basename_of_directory : basename (py "a/b/") = [].
Proof. evaluate. Qed.

Example int_str_of_clock : int_str 1700000000 = py "1700000000".
Proof. evaluate. Qed.

(* ================================================================== *)
(** * Computations *)
(* ================================================================== *)

Section Computations.

Context {A B : Type}.

Lemma bind_ret (a : A) (f : A -> M B) : bind (ret a) f = f a.
Proof. unfold bind, ret. destruct (f a) as [r t]. reflexivity. Qed.

Lemma bind_lift_ok (a : A) (f : A -> M B) : bind (lift (Ok a)) f = f a.
Proof. apply bind_ret. Qed.

Lemma bind_lift_raise (e : exn) (f : A -> M B) :
  bind (lift (Raise e)) f = (Raise e, []).
Proof. reflexivity. Qed.

Lemma bind_ok (m : M A) (a : A) (t : list effect) (f : A -> M B) :
  m = (Ok a, t) -> bind m f = (fst (f a), t ++ snd (f a)).
Proof. intros ->. unfold bind. destruct (f a). reflexivity. Qed.

Lemma bind_raise (m : M A) (e : exn) (t : list effect) (f : A -> M B) :
  m = (Raise e, t) -> bind m f = (Raise e, t).
Proof. intros ->. reflexivity. Qed.

End Computations.

(** An exception is caught by the handler exactly when its class derives
    from one of the three named in the [except] clause. *)
Lemma caught_classes (c : exc_class) (msg : str) :
  isinstance (Exn c msg) caught =
  match c with
  | ValueError | JSONDecodeError | BinasciiError | UnicodeDecodeError
  | RuntimeError
  | BotoCoreError | EndpointConnectionError | NoCredentialsError => true
  | AttributeError | TypeError | ClientError | OpenAIError => false
  end.
Proof. destruct c; reflexivity. Qed.

(* ================================================================== *)
(** * Request normalisation *)
(* ================================================================== *)

Section FromEvent.

Variable event : pydict.

(** Once the body has been read as a JSON document, the rest of
    [from_event] works on the payload alone. *)
Lemma from_event_payload (text : str) (payload : pyval) :
  event_body event = Ok (PStr text) ->
  Json.decode text = Some payload ->
  from_event event =
  (let? field := py_get payload (py "description") (PStr []) in
   let? description := py_strip field in
   if negb (truthy (PStr description)) then
     Raise (Exn ValueError (py "Description is required"))
   else
     let? media := py_get payload (py "media") PNone in
     let? filename := py_get payload (py "filename") PNone in
     Ok {| description := description;
           media_base64 := media;
           media_filename := filename |}).
Proof.
  intros Hbody Hjson. unfold from_event. rewrite Hbody.
  cbn [rbind Json.loads]. rewrite Hjson. reflexivity.
Qed.

(** A body that is not a JSON document is refused as such. *)
Lemma from_event_not_json (text : str) :
  event_body event = Ok (PStr text) ->
  Json.decode text = None ->
  from_event event = Raise (Exn ValueError (py "Request body is not valid JSON")).
Proof.
  intros Hbody Hjson. unfold from_event. rewrite Hbody.
  cbn [rbind Json.loads]. rewrite Hjson. reflexivity.
Qed.


End FromEvent.

(* ================================================================== *)
(** * The handler, step by step *)
(* ================================================================== *)

Section Handler.

Variable w : World.
Variable event : pydict.

(** A request that cannot be built ends the run at once: with the error
    envelope when the exception is caught, in the runtime otherwise. *)
Lemma handler_of_error (e : exn) :
  from_event event = Raise e ->
  lambda_handler w event =
  if isinstance e caught then (Ok (failure e), []) else (Raise e, []).
Proof.
  intros H. unfold lambda_handler. rewrite H, bind_lift_raise.
  unfold try_except. destruct (isinstance e caught); reflexivity.
Qed.

Lemma handler_of_request (r : DiagnosticRequest) :
  from_event event = Ok r ->
  lambda_handler w event =
  try_except
    (media_object <- store_media w r ;;
     response <- _invoke_openai w (_build_messages r media_object) ;;
     ret (success response))
    caught
    (fun exc => ret (failure exc)).
Proof.
  intros H. unfold lambda_handler. rewrite H, bind_lift_ok. reflexivity.
Qed.

End Handler.

(* ================================================================== *)
(** * Storing the media *)
(* ================================================================== *)

Section Upload.

Variable w : World.
Variable bucket_name : str.

(** With a client at hand and a payload that decodes, the upload is the
    write followed by the signing of the URL, both under the expected
    key. *)
Lemma upload_steps (payload : pyval) (filename : str) (s3 : s3_client) (data : bytes) :
  _get_s3_client w = Ok s3 ->
  Base64.b64decode payload = Ok data ->
  exists content_type : str,
    _guess_content_type w (PStr filename) = Ok content_type /\
    upload_media_from_base64 w bucket_name payload (PStr filename) =
    (_ <- perform (PutObject bucket_name (expected_key w filename) data content_type)
                  (put_object s3 bucket_name (expected_key w filename) data content_type) ;;
     url <- perform (GeneratePresignedUrl bucket_name (expected_key w filename) 3600)
                    (generate_presigned_url s3 bucket_name (expected_key w filename) 3600) ;;
     ret {| bucket := bucket_name; key := expected_key w filename; presigned_url := url |}).
Proof.
  intros Hs3 Hdata.
  assert (exists ct, _guess_content_type w (PStr filename) = Ok ct) as (ct & Hct).
  { unfold _guess_content_type. destruct (guess_type w filename) as [[|c t]|]; eauto. }
  exists ct. split; [exact Hct |].
  unfold upload_media_from_base64.
  rewrite Hs3, bind_lift_ok, Hdata. cbn [rtry]. rewrite bind_lift_ok.
  rewrite Hct, bind_lift_ok. cbn [os_path_basename]. rewrite bind_lift_ok.
  reflexivity.
Qed.

(** A write that fails ends the upload with the exception of the store,
    after the one call. *)
Lemma upload_write_failure (payload : pyval) (filename : str) (s3 : s3_client)
      (data : bytes) (content_type : str) (e : exn) :
  _get_s3_client w = Ok s3 ->
  Base64.b64decode payload = Ok data ->
  _guess_content_type w (PStr filename) = Ok content_type ->
  put_object s3 bucket_name (expected_key w filename) data content_type = Raise e ->
  upload_media_from_base64 w bucket_name payload (PStr filename) =
  (Raise e, [PutObject bucket_name (expected_key w filename) data content_type]).
Proof.
  intros Hs3 Hdata Hct Hput.
  destruct (upload_steps payload filename s3 data Hs3 Hdata) as (ct & Hct' & ->).
  rewrite Hct in Hct'. injection Hct' as <-.
  unfold perform. rewrite Hput. reflexivity.
Qed.

End Upload.

(** C1 (the code at the failing input).  The bucket is configured, the
    payload decodes, and S3 refuses the write: botocore raises
    [ClientError], which derives from none of the classes the handler
    catches, so the exception leaves the handler after the one write
    attempt and no error envelope is returned. *)
Theorem client_error_escapes_handler :
  lambda_handler
    (Sample.world Sample.s3_denied (Some (py "garage-media"))
                  (Sample.responses_client (py "T")))
    Sample.photo_event
  = (Raise (Exn ClientError
                (py "An error occurred (AccessDenied) when calling the PutObject operation: Access Denied")),
     [PutObject (py "garage-media") (py "uploads/1700000000-photo.png")
                (py "hello") (py "image/png")]).
Proof. evaluate. Qed.

(** The sibling case: a failure botocore reports as a [BotoCoreError] is
    turned into the error envelope. *)
Example connection_error_is_enveloped :
  lambda_handler
    (Sample.world Sample.s3_unreachable (Some (py "garage-media"))
                  (Sample.responses_client (py "T")))
    Sample.photo_event
  = (Ok (failure (Exn EndpointConnectionError (py "Could not connect to the endpoint URL"))),
     [PutObject (py "garage-media") (py "uploads/1700000000-photo.png")
                (py "hello") (py "image/png")]).
Proof. evaluate. Qed.

(** Whatever storing the media raises is enveloped when its class is among
    those caught and reaches the runtime otherwise. *)
Lemma handler_of_store_failure (w : World) (event : pydict) (r : DiagnosticRequest)
      (e : exn) (t : list effect) :
  from_event event = Ok r ->
  store_media w r = (Raise e, t) ->
  lambda_handler w event =
  if isinstance e caught then (Ok (failure e), t) else (Raise e, t).
Proof.
  intros Hr Hs. rewrite (handler_of_request w event r Hr).
  rewrite (bind_raise _ e t _ Hs). unfold try_except.
  destruct (isinstance e caught); [| reflexivity].
  unfold ret. rewrite app_nil_r. reflexivity.
Qed.

(** C2.  When the upload gets as far as computing a key (an S3 client is
    available and the payload decodes), the key it writes under, and the key
    of the object it returns, is ["uploads/" + T + "-" + basename(filename)]
    for the clock's [T]; the base name holds no separator and is what
    follows the directory part of the file name; for ["a/b/photo.png"] the
    key is ["uploads/T-photo.png"]. *)
Theorem upload_object_key (w : World) (bucket : str) (payload : pyval)
        (filename : str) (s3 : s3_client) (data : bytes) :
  _get_s3_client w = Ok s3 ->
  Base64.b64decode payload = Ok data ->
  let k := py "uploads/" ++ int_str (clock w) ++ py "-" ++ basename filename in
  let run := upload_media_from_base64 w bucket payload (PStr filename) in
  (exists content_type rest, snd run = PutObject bucket k data content_type :: rest)
  /\ (forall o, fst run = Ok o -> key o = k)
  /\ ~ In (chr "/") (basename filename)
  /\ (exists dir, filename = dir ++ basename filename
                  /\ (dir = [] \/ exists d, dir = d ++ [chr "/"]))
  /\ (filename = py "a/b/photo.png" ->
      k = py "uploads/" ++ int_str (clock w) ++ py "-photo.png").
Proof.
  intros Hs3 Hdata k run.
  destruct (upload_steps w bucket payload filename s3 data Hs3 Hdata) as (ct & _ & Hrun).
  fold (expected_key w filename) in k. subst run. rewrite Hrun. clear Hrun.
  repeat split.
  - exists ct. unfold perform, bind.
    destruct (put_object s3 bucket (expected_key w filename) data ct) as [[] | e].
    + destruct (generate_presigned_url s3 bucket (expected_key w filename) 3600) as [url | e];
        eexists; reflexivity.
    + eexists; reflexivity.
  - intros o. unfold perform, bind.
    destruct (put_object s3 bucket (expected_key w filename) data ct) as [[] | e];
      [| discriminate].
    destruct (generate_presigned_url s3 bucket (expected_key w filename) 3600) as [url | e];
      [| discriminate].
    cbn. intros H. injection H as <-. reflexivity.
  - apply basename_no_separator.
  - apply basename_split.
  - intros ->. reflexivity.
Qed.

(** The key on a concrete run: a client whose operations succeed, the
    payload [aGVsbG8=] and the file name [a/b/photo.png] at second
    1700000000. *)
Lemma upload_object_key_witness :
  exists content_type rest,
    snd (upload_media_from_base64
           (Sample.world Sample.s3_up None (Sample.responses_client (py "T")))
           (py "garage-media") (PStr (py "aGVsbG8=")) (PStr (py "a/b/photo.png")))
    = PutObject (py "garage-media") (py "uploads/1700000000-photo.png")
                (py "hello") content_type :: rest.
Proof.
  refine (proj1 (upload_object_key
                   (Sample.world Sample.s3_up None (Sample.responses_client (py "T")))
                   (py "garage-media") (PStr (py "aGVsbG8=")) (py "a/b/photo.png")
                   Sample.s3_up (py "hello") _ _)); reflexivity.
Defined.

(* ================================================================== *)
(** * JSON texts *)
(* ================================================================== *)

Section Lexing.

Import Json.





End Lexing.

(* ================================================================== *)
(** * Reading the model's reply *)
(* ================================================================== *)

(** [list(v)] answers or raises a [TypeError]. *)
Lemma py_list_cases (v : pyval) :
  (exists l, py_list v = Ok l) \/ (exists msg, py_list v = Raise (Exn TypeError msg)).
Proof. destruct v; cbn; eauto. Qed.

Section Normalize.

Variable text : str.




(** What a successful reading says about the reply: either it was not
    JSON and is the summary, or it was a JSON object and the summary is
    its field, the reply standing in for a missing field. *)
Lemma normalize_summary (response : DiagnosticResponse) :
  normalize text = Ok response ->
  (Json.decode text = None /\ summary response = PStr text)
  \/ (exists d, Json.decode text = Some (PDict d)
                /\ summary response = dict_get d (py "summary") (PStr text)).
Proof.
  unfold normalize. cbn [Json.loads].
  destruct (Json.decode text) as [parsed |] eqn:E.
  - destruct parsed as [| b | z | f | s | l | d]; try discriminate.
    cbn [rbind py_get].
    destruct (py_list_cases (dict_get d (py "potential_causes") (PList [])))
      as [(pc & ->) | (msg & ->)]; [| discriminate].
    destruct (py_list_cases (dict_get d (py "safety_checks") (PList [])))
      as [(sc & ->) | (msg & ->)]; [| discriminate].
    destruct (py_list_cases (dict_get d (py "recommended_actions") (PList [])))
      as [(ra & ->) | (msg & ->)]; [| discriminate].
    cbn. intros H. injection H as <-. right. exists d. split; reflexivity.
  - cbn. intros H. injection H as <-. left. split; reflexivity.
Qed.

End Normalize.



(* ================================================================== *)
(** * Requests the handler refuses *)
(* ================================================================== *)

(** The envelope of the caught exception [ValueError("Description is
    required")]. *)
Lemma blank_description_payload (event : pydict) (text : str) (d : pydict) :
  event_body event = Ok (PStr text) ->
  Json.decode text = Some (PDict d) ->
  (dict_lookup d (py "description") = None
   \/ exists s, dict_lookup d (py "description") = Some (PStr s)
                /\ forallb isspace s = true) ->
  from_event event = Raise (Exn ValueError (py "Description is required")).
Proof.
  intros Hbody Hjson Hblank.
  rewrite (from_event_payload event text (PDict d) Hbody Hjson).
  cbn [py_get rbind]. unfold dict_get.
  destruct Hblank as [-> | (s & -> & Hs)]; cbn [py_strip rbind].
  - reflexivity.
  - apply strip_blank in Hs. rewrite Hs. reflexivity.
Qed.




(** C5.  For a request carrying both a media payload and a file name while
    no bucket is configured, the handler returns status 400 with the error
    [S3_BUCKET environment variable is not set], and has called neither the
    store nor the model. *)
Theorem missing_bucket_is_refused (w : World) (event : pydict) (r : DiagnosticRequest) :
  from_event event = Ok r ->
  truthy (media_base64 r) = true ->
  truthy (media_filename r) = true ->
  truthy_env (S3_BUCKET w) = false ->
  lambda_handler w event =
  (Ok {| statusCode := 400;
         headers := json_headers;
         body := json_dumps
                   (PDict [ (py "error",
                             PStr (py "S3_BUCKET environment variable is not set")) ]) |},
   []).
Proof.
  intros Hr Hm Hf Hb.
  apply (handler_of_store_failure w event r
           (Exn RuntimeError (py "S3_BUCKET environment variable is not set")) [] Hr).
  unfold store_media. rewrite Hm, Hf, Hb. reflexivity.
Qed.

(** The request with a photo in a world without bucket. *)
Lemma missing_bucket_is_refused_witness :
  lambda_handler (Sample.world Sample.s3_up None (Sample.responses_client (py "T")))
                 Sample.photo_event
  = (Ok (failure (Exn RuntimeError (py "S3_BUCKET environment variable is not set"))), []).
Proof.
  apply (missing_bucket_is_refused _ _ Sample.photo_request).
  - vm_compute. reflexivity.
  - reflexivity.
  - reflexivity.
  - reflexivity.
Defined.



(* ================================================================== *)
(** * Composing the conversation *)
(* ================================================================== *)

(** C6.  [_build_messages] yields exactly two entries, in order: the system
    entry with the fixed instruction, then one user entry whose content
    starts with the text segment ["User description: " + description]; the
    content holds an image segment with a given URL exactly when media was
    stored and that is its retrieval URL (then the segment follows the text
    segment and nothing else does).  The function is a pure function of the
    description and of the retrieval URL: equal inputs give equal
    conversations, and nothing is called. *)
Theorem build_messages_shape (request : DiagnosticRequest) (media_object : option S3Object) :
  (exists rest : list pyval,
      _build_messages request media_object =
      [ PDict [ (py "role", PStr (py "system"));
                (py "content", PStr system_instruction) ];
        PDict [ (py "role", PStr (py "user"));
                (py "content",
                 PList (PDict [ (py "type", PStr (py "text"));
                                (py "text",
                                 PStr (py "User description: " ++ description request)) ]
                        :: rest)) ] ]
      /\ rest = match media_object with
                | Some o => [ PDict [ (py "type", PStr (py "input_image"));
                                      (py "image_url",
                                       PDict [ (py "url", PStr (presigned_url o)) ]) ] ]
                | None => []
                end
      /\ (forall url : str,
             In (PDict [ (py "type", PStr (py "input_image"));
                         (py "image_url", PDict [ (py "url", PStr url) ]) ])
                (PDict [ (py "type", PStr (py "text"));
                         (py "text",
                          PStr (py "User description: " ++ description request)) ]
                 :: rest)
             <-> exists o, media_object = Some o /\ presigned_url o = url))
  /\ List.length (_build_messages request media_object) = 2%nat
  /\ (forall request' media_object',
         description request' = description request ->
         option_map presigned_url media_object' = option_map presigned_url media_object ->
         _build_messages request' media_object' = _build_messages request media_object).
Proof.
  split; [| split].
  - eexists. split; [| split].
    + unfold _build_messages, text_segment.
      instantiate (1 := match media_object with
                        | Some o => [image_segment o]
                        | None => []
                        end).
      destruct media_object; reflexivity.
    + destruct media_object; reflexivity.
    + intros url. split.
      * intros [H | H]; [discriminate |].
        destruct media_object as [o |]; [| contradiction].
        destruct H as [H | []]. injection H as H. exists o. split; [reflexivity | exact H].
      * intros (o & -> & <-). right. left. reflexivity.
  - destruct media_object; reflexivity.
  - intros request' media_object' Hd Hm.
    unfold _build_messages, text_segment, image_segment. rewrite Hd.
    destruct media_object' as [o' |], media_object as [o |]; cbn in Hm; try discriminate.
    + injection Hm as ->. reflexivity.
    + reflexivity.
Qed.

(** The conversation for the request with a photo only depends on the
    description and the URL: another payload, bucket and key change
    nothing. *)
Lemma build_messages_shape_witness :
  _build_messages
    {| description := py "Oil leak"; media_base64 := PNone; media_filename := PNone |}
    (Some {| bucket := py "other"; key := py "k"; presigned_url := py "https://s3.example/u" |})
  = _build_messages Sample.photo_request
      (Some {| bucket := py "garage-media";
               key := py "uploads/1700000000-photo.png";
               presigned_url := py "https://s3.example/u" |}).
Proof.
  apply (proj2 (proj2 (build_messages_shape Sample.photo_request
                         (Some {| bucket := py "garage-media";
                                  key := py "uploads/1700000000-photo.png";
                                  presigned_url := py "https://s3.example/u" |})))).
  - reflexivity.
  - reflexivity.
Defined.

(* ================================================================== *)
(** * Calling the model *)
(* ================================================================== *)

Section Invoke.

Variable w : World.
Variable messages : list pyval.

(** The model is called at most once, with the conversation handed in and
    the ceiling of 800 tokens. *)
Lemma model_text_trace :
  snd (model_text w messages) = []
  \/ snd (model_text w messages) = [ResponsesCreate (OPENAI_MODEL w) messages 800]
  \/ snd (model_text w messages) = [ChatCompletionsCreate (OPENAI_MODEL w) messages 800].
Proof.
  unfold model_text.
  destruct (_init_openai_client w) as [client | e]; [| left; reflexivity].
  rewrite bind_lift_ok.
  destruct (responses_create client) as [create |].
  - right. left. unfold perform, bind.
    destruct (create (OPENAI_MODEL w) messages 800%Z); reflexivity.
  - destruct (chat_completions_create client) as [create |]; [| left; reflexivity].
    right. right. unfold perform, bind.
    destruct (create (OPENAI_MODEL w) messages 800%Z) as [completion | e];
      [| reflexivity].
    unfold lift. destruct (completion_text completion); reflexivity.
Qed.

(** With the text the model gave and what stripping makes of it, the
    invocation is settled. *)
Lemma invoke_of_text (v : pyval) (t : list effect) :
  model_text w messages = (Ok v, t) ->
  _invoke_openai w messages =
  match py_strip v with
  | Ok [] => (Raise (Exn RuntimeError (py "OpenAI returned an empty response")), t)
  | Ok text => (normalize text, t)
  | Raise e => (Raise e, t)
  end.
Proof.
  intros H. unfold _invoke_openai. rewrite (bind_ok _ v t _ H).
  destruct (py_strip v) as [text | e].
  - rewrite bind_lift_ok.
    destruct text as [| c text]; cbn [truthy negb];
      unfold raise, lift; cbn [fst snd]; rewrite app_nil_r; reflexivity.
  - rewrite bind_lift_raise. cbn [fst snd]. rewrite app_nil_r. reflexivity.
Qed.

(** Reading the reply calls nothing further. *)
Lemma invoke_trace : snd (_invoke_openai w messages) = snd (model_text w messages).
Proof.
  destruct (model_text w messages) as [[v | e] t] eqn:H.
  - rewrite (invoke_of_text v t H).
    destruct (py_strip v) as [[| c text] | e]; reflexivity.
  - unfold _invoke_openai. rewrite H. reflexivity.
Qed.

End Invoke.

(* ================================================================== *)
(** * The media step *)
(* ================================================================== *)



Section MediaStep.

Variable w : World.
Variable r : DiagnosticRequest.


Lemma store_media_wanted :
  truthy (media_base64 r) && truthy (media_filename r) = true ->
  store_media w r =
  if negb (truthy_env (S3_BUCKET w)) then
    raise (Exn RuntimeError (py "S3_BUCKET environment variable is not set"))
  else
    o <- upload_media_from_base64 w (env_value (S3_BUCKET w))
           (media_base64 r) (media_filename r) ;;
    ret (Some o).
Proof. intros H. unfold store_media. rewrite H. reflexivity. Qed.


End MediaStep.



(* ================================================================== *)
(** * Empty replies *)
(* ================================================================== *)

Lemma bind_ok_inv {A B : Type} (m : M A) (f : A -> M B) (b : B) (t : list effect) :
  bind m f = (Ok b, t) ->
  exists a t0 t1, m = (Ok a, t0) /\ f a = (Ok b, t1) /\ t = t0 ++ t1.
Proof.
  destruct m as [[a | e] t0]; unfold bind; [| discriminate].
  destruct (f a) as [rb t1] eqn:E. intros H. injection H as -> <-.
  exists a, t0, t1. auto.
Qed.

Lemma lift_ok_inv {A : Type} (r : result A) (a : A) (t : list effect) :
  lift r = (Ok a, t) -> r = Ok a /\ t = [].
Proof. unfold lift. intros H. injection H as -> <-. auto. Qed.

(** A status of 200 comes from the body of the handler, not from its
    [except] clause. *)
Lemma try_except_success_inv (m : M http_response) (resp : http_response) (t : list effect) :
  try_except m caught (fun exc => ret (failure exc)) = (Ok resp, t) ->
  statusCode resp = 200%Z ->
  m = (Ok resp, t).
Proof.
  destruct m as [[a | e] t']; unfold try_except.
  - intros H _. exact H.
  - destruct (isinstance e caught); [| discriminate].
    cbn. intros H Hs. injection H as <- _. discriminate.
Qed.

(** What lies behind a status of 200: a request, a media step that ended
    well, a reply of the model that is not empty once stripped and that
    [normalize] could read. *)
Lemma handler_success_inv (w : World) (event : pydict) (resp : http_response)
      (t : list effect) :
  lambda_handler w event = (Ok resp, t) ->
  statusCode resp = 200%Z ->
  exists r media_object t0 v t1 text response,
    from_event event = Ok r
    /\ store_media w r = (Ok media_object, t0)
    /\ model_text w (_build_messages r media_object) = (Ok v, t1)
    /\ py_strip v = Ok text
    /\ text <> []
    /\ normalize text = Ok response
    /\ resp = success response
    /\ t = t0 ++ t1.
Proof.
  intros H Hs. unfold lambda_handler in H.
  apply try_except_success_inv in H; [| exact Hs].
  apply bind_ok_inv in H as (r & ta & tb & Hr & H & ->).
  apply lift_ok_inv in Hr as [Hr ->].
  apply bind_ok_inv in H as (mo & t0 & tc & Hm & H & ->).
  apply bind_ok_inv in H as (response & t1 & td & Hi & H & ->).
  unfold ret in H. injection H as <- <-.
  unfold _invoke_openai in Hi.
  apply bind_ok_inv in Hi as (v & t1' & te & Hv & Hi & ->).
  apply bind_ok_inv in Hi as (text & tf & tg & Ht & Hi & ->).
  apply lift_ok_inv in Ht as [Ht ->].
  destruct text as [| c text]; cbn [truthy negb] in Hi; [discriminate |].
  apply lift_ok_inv in Hi as [Hn ->].
  exists r, mo, t0, v, t1', (c :: text), response.
  repeat split; try assumption.
  - discriminate.
  - cbn. rewrite !app_nil_r. reflexivity.
Qed.

(** C7 (as amended).  When the text taken from the model's reply is empty
    or all white space, [_invoke_openai] raises [RuntimeError("OpenAI
    returned an empty response")] and the handler returns the envelope of
    that error with status 400.  A status of 200 always stands on a reply
    of the model that is not empty once stripped; its summary is empty only
    when that reply is a JSON object whose own summary is the empty
    string. *)
Theorem empty_model_output :
  (forall (w : World) (messages : list pyval) (raw : str) (t : list effect),
      model_text w messages = (Ok (PStr raw), t) ->
      forallb isspace raw = true ->
      _invoke_openai w messages =
      (Raise (Exn RuntimeError (py "OpenAI returned an empty response")), t))
  /\ (forall (w : World) (event : pydict) (r : DiagnosticRequest)
             (media_object : option S3Object) (t0 : list effect)
             (raw : str) (t : list effect),
         from_event event = Ok r ->
         store_media w r = (Ok media_object, t0) ->
         model_text w (_build_messages r media_object) = (Ok (PStr raw), t) ->
         forallb isspace raw = true ->
         lambda_handler w event =
         (Ok {| statusCode := 400;
                headers := json_headers;
                body := json_dumps
                          (PDict [ (py "error",
                                    PStr (py "OpenAI returned an empty response")) ]) |},
          t0 ++ t))
  /\ (forall (w : World) (event : pydict) (resp : http_response) (t : list effect),
         lambda_handler w event = (Ok resp, t) ->
         statusCode resp = 200%Z ->
         exists (r : DiagnosticRequest) (media_object : option S3Object)
                (t0 t1 : list effect) (reply : pyval) (text : str)
                (response : DiagnosticResponse),
           from_event event = Ok r
           /\ store_media w r = (Ok media_object, t0)
           /\ model_text w (_build_messages r media_object) = (Ok reply, t1)
           /\ py_strip reply = Ok text
           /\ text <> []
           /\ normalize text = Ok response
           /\ resp = success response
           /\ (summary response = PStr [] ->
               exists d, Json.decode text = Some (PDict d)
                         /\ dict_lookup d (py "summary") = Some (PStr []))).
Proof.
  assert (Hinvoke : forall w messages raw t,
             model_text w messages = (Ok (PStr raw), t) ->
             forallb isspace raw = true ->
             _invoke_openai w messages =
             (Raise (Exn RuntimeError (py "OpenAI returned an empty response")), t)).
  { intros w messages raw t Hm Hraw.
    rewrite (invoke_of_text w messages _ t Hm). cbn [py_strip].
    apply strip_blank in Hraw. rewrite Hraw. reflexivity. }
  split; [exact Hinvoke | split].
  - intros w event r mo t0 raw t Hr Hs Hm Hraw.
    rewrite (handler_of_request w event r Hr), (bind_ok _ mo t0 _ Hs).
    rewrite (bind_raise _ _ t _ (Hinvoke _ _ _ _ Hm Hraw)).
    cbn. rewrite app_nil_r. reflexivity.
  - intros w event resp t H Hs.
    destruct (handler_success_inv w event resp t H Hs)
      as (r & mo & t0 & v & t1 & text & response & Hr & Hm & Hv & Ht & Hne & Hn & -> & _).
    exists r, mo, t0, t1, v, text, response. repeat split; try assumption.
    intros Hsum.
    destruct (normalize_summary text response Hn) as [[_ Hplain] | (d & Hd & Hfield)].
    + rewrite Hsum in Hplain. injection Hplain as <-. contradiction.
    + exists d. split; [exact Hd |].
      rewrite Hsum in Hfield. unfold dict_get in Hfield.
      destruct (dict_lookup d (py "summary")) as [x |].
      * rewrite <- Hfield. reflexivity.
      * injection Hfield as <-. contradiction.
Qed.

(** A model that answers with three spaces. *)
Lemma empty_model_output_witness :
  _invoke_openai (Sample.world Sample.s3_up None (Sample.responses_client (py "   ")))
                 (_build_messages Sample.plain_request None)
  = (Raise (Exn RuntimeError (py "OpenAI returned an empty response")),
     [ResponsesCreate (py "gpt-4o-mini") (_build_messages Sample.plain_request None) 800])
  /\ lambda_handler (Sample.world Sample.s3_up None (Sample.responses_client (py "   ")))
                    Sample.plain_event
     = (Ok (failure (Exn RuntimeError (py "OpenAI returned an empty response"))),
        [ResponsesCreate (py "gpt-4o-mini") (_build_messages Sample.plain_request None) 800]).
Proof.
  split.
  - apply (proj1 empty_model_output _ _ (py "   ")); reflexivity.
  - apply (proj1 (proj2 empty_model_output) _ _ Sample.plain_request None [] (py "   "));
      reflexivity.
Defined.

(** C7 (the claim as stated fails).  The model's reply is the JSON object
    [{summary: ""}]: it is not empty, it parses, and the handler returns
    status 200 with the empty summary. *)
Lemma empty_summary_is_returned :
  lambda_handler
    (Sample.world Sample.s3_up None (Sample.responses_client (pyq "{'summary': ''}")))
    Sample.plain_event
  = (Ok {| statusCode := 200;
           headers := json_headers;
           body := json_dumps
                     (PDict [ (py "summary", PStr []);
                              (py "potential_causes", PList []);
                              (py "safety_checks", PList []);
                              (py "recommended_actions", PList []) ]) |},
     [ResponsesCreate (py "gpt-4o-mini") (_build_messages Sample.plain_request None) 800]).
Proof. evaluate. Qed.

(* ================================================================== *)
(** * The text of a chat completion *)
(* ================================================================== *)

Section Segments.

(** Joining the [text] entries of the [dict] segments, when they are all
    strings. *)
Lemma join_text_parts (parts : list pyval) :
  forallb text_entry_is_str parts = true ->
  forall i, join_from i (text_parts parts) = Ok (List.concat (map segment_text parts)).
Proof.
  induction parts as [| part parts IH]; intros Hstr i.
  - reflexivity.
  - cbn [forallb] in Hstr. apply andb_true_iff in Hstr as [Hpart Hrest].
    destruct part as [| b | z | f | s | l | d]; cbn [text_parts map segment_text List.concat];
      try exact (IH Hrest i).
    unfold text_entry_is_str in Hpart.
    destruct (dict_get d (py "text") (PStr [])) as [| b | z | f | s | l | d'];
      try discriminate.
    cbn [join_from]. rewrite (IH Hrest (i + 1)%Z). reflexivity.
Qed.

(** The code and the specification agree when no segment of another type
    carries a [text] entry. *)
Lemma text_typed_agreement (parts : list pyval) :
  (forall d, In (PDict d) parts -> is_text_typed d = false ->
             dict_lookup d (py "text") = None) ->
  List.concat (map segment_text parts) = text_of_text_typed_segments parts.
Proof.
  induction parts as [| part parts IH]; intros Hty.
  - reflexivity.
  - assert (Hrest : forall d, In (PDict d) parts -> is_text_typed d = false ->
                              dict_lookup d (py "text") = None).
    { intros d Hd. apply Hty. right. exact Hd. }
    destruct part as [| b | z | f | s | l | d];
      cbn [map segment_text List.concat text_of_text_typed_segments app];
      try exact (IH Hrest).
    rewrite (IH Hrest). f_equal.
    destruct (is_text_typed d) eqn:E; [reflexivity |].
    unfold dict_get. rewrite (Hty d (or_introl eq_refl) E). reflexivity.
Qed.

End Segments.

(** On the fallback path the text of the reply is the text of the
    completion. *)
Lemma model_text_fallback (w : World) (messages : list pyval)
      (create : str -> list pyval -> Z -> result chat_completion)
      (completion : chat_completion) :
  truthy_env (env_OPENAI_API_KEY w) = true ->
  responses_create (openai_OpenAI w) = None ->
  chat_completions_create (openai_OpenAI w) = Some create ->
  create (OPENAI_MODEL w) messages 800%Z = Ok completion ->
  model_text w messages =
  (completion_text completion, [ChatCompletionsCreate (OPENAI_MODEL w) messages 800]).
Proof.
  intros Hkey Hresp Hchat Hcreate.
  unfold model_text, _init_openai_client. rewrite Hkey. cbn [negb].
  rewrite bind_lift_ok, Hresp, Hchat. unfold perform, bind, lift.
  rewrite Hcreate. rewrite app_nil_r. reflexivity.
Qed.

(** C8 (as amended).  On the fallback path, when the content of the first
    choice is a list of segments, the text taken from the completion is the
    concatenation, in order, of the [text] entries of the segments that are
    [dict]s, whatever their type (the entries being strings); a [dict]
    without a [text] entry and a segment that is not a [dict] add nothing.
    It is the text of the text-typed segments alone whenever no segment of
    another type carries a [text] entry. *)
Theorem completion_text_of_segments
        (w : World) (messages : list pyval)
        (create : str -> list pyval -> Z -> result chat_completion)
        (completion : chat_completion) (first : chat_message)
        (others : list chat_message) (parts : list pyval) :
  truthy_env (env_OPENAI_API_KEY w) = true ->
  responses_create (openai_OpenAI w) = None ->
  chat_completions_create (openai_OpenAI w) = Some create ->
  create (OPENAI_MODEL w) messages 800%Z = Ok completion ->
  choices completion = first :: others ->
  content first = Some (PList parts) ->
  forallb text_entry_is_str parts = true ->
  model_text w messages =
  (Ok (PStr (List.concat (map segment_text parts))),
   [ChatCompletionsCreate (OPENAI_MODEL w) messages 800])
  /\ (forall d, dict_lookup d (py "text") = None -> segment_text (PDict d) = [])
  /\ (forall v, (forall d, v <> PDict d) -> segment_text v = [])
  /\ ((forall d, In (PDict d) parts -> is_text_typed d = false ->
                 dict_lookup d (py "text") = None) ->
      model_text w messages =
      (Ok (PStr (text_of_text_typed_segments parts)),
       [ChatCompletionsCreate (OPENAI_MODEL w) messages 800])).
Proof.
  intros Hkey Hresp Hchat Hcreate Hc Hfirst Hstr.
  assert (Heq : completion_text completion
                = Ok (PStr (List.concat (map segment_text parts)))).
  { unfold completion_text. rewrite Hc, Hfirst. unfold str_join.
    rewrite (join_text_parts parts Hstr 0%Z). reflexivity. }
  rewrite (model_text_fallback w messages create completion Hkey Hresp Hchat Hcreate), Heq.
  split; [reflexivity | split; [| split]].
  - intros d Hd. unfold segment_text, dict_get. rewrite Hd. reflexivity.
  - intros v Hv. destruct v; try reflexivity. exfalso. exact (Hv d eq_refl).
  - intros Hty. rewrite (text_typed_agreement parts Hty). reflexivity.
Qed.

(** A client with chat completions only, replying with the mixed content of
    the samples. *)
Lemma completion_text_of_segments_witness :
  model_text (Sample.world Sample.s3_up None
                           (Sample.chat_client (PList Sample.mixed_segments)))
             (_build_messages Sample.plain_request None)
  = (Ok (PStr (py "Worn brake pads")),
     [ChatCompletionsCreate (py "gpt-4o-mini")
                            (_build_messages Sample.plain_request None) 800]).
Proof.
  refine (proj1 (completion_text_of_segments
                   (Sample.world Sample.s3_up None
                                 (Sample.chat_client (PList Sample.mixed_segments)))
                   (_build_messages Sample.plain_request None)
                   (fun _ _ _ => Ok (Sample.reply_of (PList Sample.mixed_segments)))
                   (Sample.reply_of (PList Sample.mixed_segments))
                   {| content := Some (PList Sample.mixed_segments) |} []
                   Sample.mixed_segments
                   _ _ _ _ _ _ _)); reflexivity.
Defined.

(** C8 (the claim as stated fails).  A segment typed [input_image] that
    carries a [text] entry adds that text, where the text-typed segments
    alone give the empty string. *)
Lemma untyped_text_is_extracted :
  model_text (Sample.world Sample.s3_up None
                           (Sample.chat_client (PList [Sample.captioned_image])))
             (_build_messages Sample.plain_request None)
  = (Ok (PStr (py "X")),
     [ChatCompletionsCreate (py "gpt-4o-mini")
                            (_build_messages Sample.plain_request None) 800])
  /\ text_of_text_typed_segments [Sample.captioned_image] = [].
Proof. split; evaluate. Qed.

(* ================================================================== *)
(** * More on request normalisation *)
(* ================================================================== *)

(** The decoder of base64 only raises [binascii.Error]. *)
Lemma a2b_base64_loop_raises (data : bytes) :
  forall (quad_pos leftchar pads : N) (out : bytes) (e : exn),
    Base64.a2b_base64_loop data quad_pos leftchar pads out = Raise e ->
    exc_type e = BinasciiError.
Proof.
  induction data as [| c rest IH]; intros q l p out e; cbn [Base64.a2b_base64_loop].
  - destruct (q =? 0)%N; [discriminate |].
    destruct (q =? 1)%N; intros H; injection H as <-; reflexivity.
  - repeat match goal with
           | |- context [if ?b then _ else _] => destruct b
           | |- context [match Base64.b64_value ?x with _ => _ end] =>
               destruct (Base64.b64_value x)
           end;
      try discriminate; apply IH.
Qed.

(** [b64decode] of a string raises within [ValueError]; of anything else, a
    [TypeError]. *)
Lemma b64decode_raises (v : pyval) (e : exn) :
  Base64.b64decode v = Raise e ->
  match v with
  | PStr _ => issubclass (exc_type e) ValueError = true
  | _ => exc_type e = TypeError
  end.
Proof.
  destruct v as [| b | z | f | s | l | d]; cbn [Base64.b64decode];
    try (intros H; injection H as <-; reflexivity).
  destruct (forallb (fun c => (c <? 128)%N) s).
  - intros H. unfold Base64.a2b_base64 in H.
    rewrite (a2b_base64_loop_raises _ _ _ _ _ _ H). reflexivity.
  - intros H. injection H as <-. reflexivity.
Qed.

(** The handler sees the event through its body alone. *)
Lemma handler_of_body (w : World) (event event' : pydict) :
  event_body event = event_body event' ->
  lambda_handler w event = lambda_handler w event'.
Proof.
  intros H. unfold lambda_handler, from_event. rewrite H. reflexivity.
Qed.



(** X2.  When the body is a string, or is absent, and reading it fails (the
    event says base64 and the body does not decode, or the bytes are not
    UTF-8), the handler answers as for a body that is not JSON: status 400,
    [Request body is not valid JSON], nothing called. *)
Theorem undecodable_body_is_refused (w : World) (event : pydict) (e : exn) :
  (truthy (dict_get event (py "body") PNone) = false
   \/ exists s, dict_get event (py "body") PNone = PStr s) ->
  event_body event = Raise e ->
  lambda_handler w event =
  (Ok {| statusCode := 400;
         headers := json_headers;
         body := json_dumps
                   (PDict [ (py "error", PStr (py "Request body is not valid JSON")) ]) |},
   []).
Proof.
  intros Hbody Hraise.
  assert (Hstr : exists s, py_or (dict_get event (py "body") PNone) (PStr (py "{}")) = PStr s).
  { unfold py_or. destruct Hbody as [-> | (s & ->)].
    - eexists. reflexivity.
    - destruct (truthy (PStr s)); eexists; reflexivity. }
  destruct Hstr as (s & Hs).
  assert (Hclass : issubclass (exc_type e) ValueError = true).
  { unfold event_body in Hraise. rewrite Hs in Hraise.
    destruct (truthy (dict_get event (py "isBase64Encoded") PNone)); [| discriminate].
    destruct (Base64.b64decode (PStr s)) as [raw | e'] eqn:Hb; cbn [rbind] in Hraise.
    - unfold Utf8.decode in Hraise.
      destruct (Utf8.decode_points raw); cbn [rbind] in Hraise; [discriminate |].
      injection Hraise as <-. reflexivity.
    - injection Hraise as <-. exact (b64decode_raises (PStr s) e' Hb). }
  assert (Hfrom : from_event event
                  = Raise (Exn ValueError (py "Request body is not valid JSON"))).
  { unfold from_event. rewrite Hraise. cbn [rbind rtry].
    unfold isinstance. cbn [existsb]. rewrite Hclass. reflexivity. }
  rewrite (handler_of_error w event _ Hfrom). reflexivity.
Qed.

(** A body that is said to be base64 and is not. *)
Lemma undecodable_body_is_refused_witness :
  lambda_handler (Sample.world Sample.s3_up None (Sample.responses_client (py "T")))
                 (Cases.flagged (py "a"))
  = (Ok (failure (Exn ValueError (py "Request body is not valid JSON"))), []).
Proof.
  apply (undecodable_body_is_refused
           _ (Cases.flagged (py "a"))
           (Exn BinasciiError
                (py "Invalid base64-encoded string: number of data characters (1) cannot be 1 more than a multiple of 4"))).
  - right. exists (py "a"). reflexivity.
  - vm_compute. reflexivity.
Defined.

(** X3.  An event that says base64 is handled as the event that carries
    the decoded text: when the body decodes to a text that is not empty,
    the handler does on it exactly what it does on the plain event with
    that text as body. *)
Theorem base64_body_is_transparent
        (w : World) (event : pydict) (s : str) (raw : bytes) (text : str) :
  truthy (dict_get event (py "isBase64Encoded") PNone) = true ->
  dict_get event (py "body") PNone = PStr s ->
  s <> [] ->
  Base64.b64decode (PStr s) = Ok raw ->
  Utf8.decode raw = Ok text ->
  text <> [] ->
  lambda_handler w event = lambda_handler w [ (py "body", PStr text) ].
Proof.
  intros Hflag Hbody Hs Hraw Htext Hne.
  apply handler_of_body.
  unfold event_body. rewrite Hflag, Hbody.
  replace (py_or (PStr s) (PStr (py "{}"))) with (PStr s)
    by (destruct s; [contradiction | reflexivity]).
  rewrite Hraw. cbn [rbind]. rewrite Htext. cbn [rbind].
  replace (dict_get [ (py "body", PStr text) ] (py "body") PNone) with (PStr text)
    by reflexivity.
  replace (dict_get [ (py "body", PStr text) ] (py "isBase64Encoded") PNone) with PNone
    by reflexivity.
  destruct text; [contradiction | reflexivity].
Qed.

Lemma base64_body_is_transparent_witness :
  lambda_handler (Sample.world Sample.s3_up None (Sample.responses_client (py "T")))
                 (Cases.flagged Cases.encoded_body)
  = lambda_handler (Sample.world Sample.s3_up None (Sample.responses_client (py "T")))
                   [ (py "body", PStr (pyq "{'description': 'Oil leak'}")) ].
Proof.
  apply (base64_body_is_transparent
           _ _ Cases.encoded_body (pyq "{'description': 'Oil leak'}")
           (pyq "{'description': 'Oil leak'}")).
  - reflexivity.
  - reflexivity.
  - discriminate.
  - vm_compute. reflexivity.
  - vm_compute. reflexivity.
  - discriminate.
Defined.

(** X4.  An event without body (the key is missing, or holds [None], the
    empty string or another false value) is read as the empty object when
    it does not say base64, and gets [Description is required]; when it
    says base64, the stand-in [{}] is decoded as base64 to the empty text
    and gets [Request body is not valid JSON].  Both are status 400 with
    nothing called. *)
Theorem missing_body_is_refused (w : World) (event : pydict) :
  truthy (dict_get event (py "body") PNone) = false ->
  lambda_handler w event =
  (Ok (failure (Exn ValueError
                    (if truthy (dict_get event (py "isBase64Encoded") PNone)
                     then py "Request body is not valid JSON"
                     else py "Description is required"))),
   []).
Proof.
  intros Hbody.
  assert (Hev : event_body event
                = if truthy (dict_get event (py "isBase64Encoded") PNone)
                  then Ok (PStr []) else Ok (PStr (py "{}"))).
  { unfold event_body, py_or. rewrite Hbody.
    destruct (truthy (dict_get event (py "isBase64Encoded") PNone)); reflexivity. }
  destruct (truthy (dict_get event (py "isBase64Encoded") PNone)).
  - rewrite (handler_of_error w event _ (from_event_not_json event [] Hev eq_refl)).
    reflexivity.
  - rewrite (handler_of_error w event _
               (blank_description_payload event (py "{}") [] Hev eq_refl
                                          (or_introl eq_refl))).
    reflexivity.
Qed.

Lemma missing_body_is_refused_witness :
  lambda_handler (Sample.world Sample.s3_up None (Sample.responses_client (py "T"))) []
  = (Ok (failure (Exn ValueError (py "Description is required"))), [])
  /\ lambda_handler (Sample.world Sample.s3_up None (Sample.responses_client (py "T")))
                    [ (py "body", PNone); (py "isBase64Encoded", PBool true) ]
     = (Ok (failure (Exn ValueError (py "Request body is not valid JSON"))), []).
Proof.
  split.
  - apply (missing_body_is_refused _ []). reflexivity.
  - apply (missing_body_is_refused
             _ [ (py "body", PNone); (py "isBase64Encoded", PBool true) ]).
    reflexivity.
Defined.

(** X5.  A body that is present and is not a string (an object the caller
    has already parsed, a number) makes [json.loads], or [b64decode] when
    the event says base64, raise a [TypeError]; it is not caught, so no
    envelope is returned and nothing is called. *)
Theorem non_string_body_escapes_handler (w : World) (event : pydict) :
  truthy (dict_get event (py "body") PNone) = true ->
  (forall s, dict_get event (py "body") PNone <> PStr s) ->
  exists msg : str,
    from_event event = Raise (Exn TypeError msg)
    /\ lambda_handler w event = (Raise (Exn TypeError msg), []).
Proof.
  intros Htrue Hstr.
  assert (exists msg, from_event event = Raise (Exn TypeError msg)) as (msg & H).
  { unfold from_event, event_body, py_or. rewrite Htrue.
    destruct (dict_get event (py "body") PNone) as [| b | z | f | s | l | d];
      try (destruct (truthy (dict_get event (py "isBase64Encoded") PNone));
           eexists; reflexivity).
    exfalso. exact (Hstr s eq_refl). }
  exists msg. split; [exact H |].
  rewrite (handler_of_error w event _ H). reflexivity.
Qed.

Lemma non_string_body_escapes_handler_witness :
  exists msg : str,
    from_event Cases.parsed_event = Raise (Exn TypeError msg)
    /\ lambda_handler (Sample.world Sample.s3_up None (Sample.responses_client (py "T")))
                      Cases.parsed_event
       = (Raise (Exn TypeError msg), []).
Proof.
  apply (non_string_body_escapes_handler _ Cases.parsed_event).
  - reflexivity.
  - discriminate.
Defined.



(* ================================================================== *)
(** * More on the upload *)
(* ================================================================== *)

(** Up to the write, the upload calls nothing: these are its ways to stop
    before. *)
Lemma upload_without_client (w : World) (bucket_name : str) (payload filename : pyval)
      (e : exn) :
  _get_s3_client w = Raise e ->
  upload_media_from_base64 w bucket_name payload filename = (Raise e, []).
Proof. intros H. unfold upload_media_from_base64. rewrite H. reflexivity. Qed.

Lemma upload_bad_payload (w : World) (bucket_name : str) (payload filename : pyval)
      (s3 : s3_client) (e : exn) :
  _get_s3_client w = Ok s3 ->
  Base64.b64decode payload = Raise e ->
  upload_media_from_base64 w bucket_name payload filename =
  (Raise (if isinstance e [ValueError; BinasciiError]
          then Exn ValueError (py "Invalid base64 payload provided") else e), []).
Proof.
  intros Hs3 Hb. unfold upload_media_from_base64.
  rewrite Hs3, bind_lift_ok, Hb. cbn [rtry].
  destruct (isinstance e [ValueError; BinasciiError]); reflexivity.
Qed.

(** A failure of the media step that the handler catches. *)
Lemma handler_of_caught_store_failure (w : World) (event : pydict)
      (r : DiagnosticRequest) (e : exn) (t : list effect) :
  from_event event = Ok r ->
  store_media w r = (Raise e, t) ->
  isinstance e caught = true ->
  lambda_handler w event = (Ok (failure e), t).
Proof.
  intros Hr Hs Hc. rewrite (handler_of_store_failure w event r e t Hr Hs), Hc.
  reflexivity.
Qed.

(** X7.  Without boto3 the upload stops at once, whatever the payload and
    the file name: [upload_media_from_base64] raises the [RuntimeError]
    that asks for boto3, and the handler, for a request with media and a
    configured bucket, returns it with status 400; nothing is called. *)
Theorem upload_needs_boto3 (w : World) :
  boto3_client_s3 w = None ->
  (forall (bucket_name : str) (payload filename : pyval),
      upload_media_from_base64 w bucket_name payload filename =
      (Raise (Exn RuntimeError
                  (py "boto3 is required to upload media. Install it with 'pip3 install boto3'.")),
       []))
  /\ (forall (event : pydict) (r : DiagnosticRequest),
         from_event event = Ok r ->
         truthy (media_base64 r) && truthy (media_filename r) = true ->
         truthy_env (S3_BUCKET w) = true ->
         lambda_handler w event =
         (Ok (failure
                (Exn RuntimeError
                     (py "boto3 is required to upload media. Install it with 'pip3 install boto3'."))),
          [])).
Proof.
  intros Hboto.
  assert (Hup : forall bucket_name payload filename,
             upload_media_from_base64 w bucket_name payload filename =
             (Raise (Exn RuntimeError
                         (py "boto3 is required to upload media. Install it with 'pip3 install boto3'.")),
              [])).
  { intros. apply upload_without_client. unfold _get_s3_client. rewrite Hboto. reflexivity. }
  split; [exact Hup |].
  intros event r Hr Hw Hb.
  apply (handler_of_caught_store_failure w event r _ [] Hr); [| reflexivity].
  rewrite (store_media_wanted w r Hw), Hb. cbn [negb]. rewrite Hup. reflexivity.
Qed.

Lemma upload_needs_boto3_witness :
  lambda_handler (Cases.world_of (Some (py "sk-test")) None (Sample.responses_client (py "T")))
                 Sample.photo_event
  = (Ok (failure
           (Exn RuntimeError
                (py "boto3 is required to upload media. Install it with 'pip3 install boto3'."))),
     []).
Proof.
  apply (proj2 (upload_needs_boto3
                  (Cases.world_of (Some (py "sk-test")) None (Sample.responses_client (py "T")))
                  eq_refl)
               Sample.photo_event Sample.photo_request).
  - vm_compute. reflexivity.
  - reflexivity.
  - reflexivity.
Defined.

(** X8.  A media payload that is a string and is not base64 is refused
    before anything is written: the upload raises [ValueError("Invalid
    base64 payload provided")], and the handler returns it with status
    400. *)
Theorem invalid_payload_is_refused
        (w : World) (s3 : s3_client) (payload : str) (e : exn) :
  _get_s3_client w = Ok s3 ->
  Base64.b64decode (PStr payload) = Raise e ->
  (forall (bucket_name : str) (filename : pyval),
      upload_media_from_base64 w bucket_name (PStr payload) filename =
      (Raise (Exn ValueError (py "Invalid base64 payload provided")), []))
  /\ (forall (event : pydict) (r : DiagnosticRequest),
         from_event event = Ok r ->
         media_base64 r = PStr payload ->
         truthy (media_base64 r) && truthy (media_filename r) = true ->
         truthy_env (S3_BUCKET w) = true ->
         lambda_handler w event =
         (Ok (failure (Exn ValueError (py "Invalid base64 payload provided"))), [])).
Proof.
  intros Hs3 Hb.
  assert (Hup : forall bucket_name filename,
             upload_media_from_base64 w bucket_name (PStr payload) filename =
             (Raise (Exn ValueError (py "Invalid base64 payload provided")), [])).
  { intros. rewrite (upload_bad_payload w bucket_name (PStr payload) filename s3 e Hs3 Hb).
    pose proof (b64decode_raises (PStr payload) e Hb) as Hc. cbn in Hc.
    unfold isinstance. cbn [existsb]. rewrite Hc. reflexivity. }
  split; [exact Hup |].
  intros event r Hr Hm Hw Hbucket.
  apply (handler_of_caught_store_failure w event r _ [] Hr); [| reflexivity].
  rewrite (store_media_wanted w r Hw), Hbucket, Hm. cbn [negb]. rewrite Hup. reflexivity.
Qed.

Lemma invalid_payload_is_refused_witness :
  lambda_handler
    (Sample.world Sample.s3_up (Some (py "garage-media")) (Sample.responses_client (py "T")))
    (Sample.event_of (pyq "{'description': 'Oil leak', 'media': 'abcde', 'filename': 'photo.png'}"))
  = (Ok (failure (Exn ValueError (py "Invalid base64 payload provided"))), []).
Proof.
  apply (proj2 (invalid_payload_is_refused
                  (Sample.world Sample.s3_up (Some (py "garage-media"))
                                (Sample.responses_client (py "T")))
                  Sample.s3_up (py "abcde")
                  (Exn BinasciiError
                       (py "Invalid base64-encoded string: number of data characters (5) cannot be 1 more than a multiple of 4"))
                  eq_refl eq_refl)
               _ {| description := py "Oil leak";
                    media_base64 := PStr (py "abcde");
                    media_filename := PStr (py "photo.png") |}).
  - vm_compute. reflexivity.
  - reflexivity.
  - reflexivity.
  - reflexivity.
Defined.

(** X9.  A media payload that is true and is not a string, or a file name
    that is true and is not a string beside a payload that decodes, makes
    the upload raise a [TypeError] before anything is written; the handler
    does not catch it, so no envelope is returned. *)
Theorem non_string_media_escapes_handler
        (w : World) (event : pydict) (r : DiagnosticRequest) (s3 : s3_client) :
  from_event event = Ok r ->
  truthy (media_base64 r) && truthy (media_filename r) = true ->
  truthy_env (S3_BUCKET w) = true ->
  _get_s3_client w = Ok s3 ->
  ((forall s, media_base64 r <> PStr s)
   \/ ((exists data, Base64.b64decode (media_base64 r) = Ok data)
       /\ forall s, media_filename r <> PStr s)) ->
  exists msg : str,
    lambda_handler w event = (Raise (Exn TypeError msg), []).
Proof.
  intros Hr Hw Hbucket Hs3 Hbad.
  assert (exists msg,
             upload_media_from_base64 w (env_value (S3_BUCKET w))
               (media_base64 r) (media_filename r)
             = (Raise (Exn TypeError msg), [])) as (msg & Hup).
  { destruct Hbad as [Hm | [(data & Hd) Hf]].
    - destruct (Base64.b64decode (media_base64 r)) as [data | e] eqn:Hb.
      + exfalso. destruct (media_base64 r); try discriminate. exact (Hm s eq_refl).
      + rewrite (upload_bad_payload w _ _ _ s3 e Hs3 Hb).
        pose proof (b64decode_raises _ e Hb) as Hc.
        destruct (media_base64 r); try (destruct e as [c m]; cbn in Hc; subst c;
                                        exists m; reflexivity).
        exfalso. exact (Hm s eq_refl).
    - unfold upload_media_from_base64.
      rewrite Hs3, bind_lift_ok, Hd. cbn [rtry]. rewrite bind_lift_ok.
      destruct (media_filename r) as [| b | z | f | s | l | d];
        try (eexists; reflexivity).
      exfalso. exact (Hf s eq_refl). }
  exists msg.
  rewrite (handler_of_store_failure w event r (Exn TypeError msg) [] Hr).
  - reflexivity.
  - rewrite (store_media_wanted w r Hw), Hbucket. cbn [negb]. rewrite Hup. reflexivity.
Qed.

Lemma non_string_media_escapes_handler_witness :
  exists msg : str,
    lambda_handler
      (Sample.world Sample.s3_up (Some (py "garage-media")) (Sample.responses_client (py "T")))
      (Sample.event_of (pyq "{'description': 'Oil leak', 'media': 7, 'filename': 'photo.png'}"))
    = (Raise (Exn TypeError msg), []).
Proof.
  apply (non_string_media_escapes_handler _ _ Cases.numeric_media_request Sample.s3_up).
  - vm_compute. reflexivity.
  - reflexivity.
  - reflexivity.
  - reflexivity.
  - left. discriminate.
Defined.

(** X10.  With a client at hand, a payload that decodes and a file name
    that is a string, the upload writes the decoded bytes once, to the given
    bucket and under the expected key, then asks for a URL of that object
    valid for 3600 seconds, and returns bucket, key and URL.  A failure of
    the write ends it after the write, a failure of the signing after both
    calls, with the exception of the store as it is: the upload catches
    none and undoes nothing. *)
Theorem upload_outcome
        (w : World) (bucket_name : str) (payload : pyval) (filename : str)
        (s3 : s3_client) (data : bytes) (content_type : str) :
  _get_s3_client w = Ok s3 ->
  Base64.b64decode payload = Ok data ->
  _guess_content_type w (PStr filename) = Ok content_type ->
  let k := expected_key w filename in
  upload_media_from_base64 w bucket_name payload (PStr filename) =
  match put_object s3 bucket_name k data content_type with
  | Raise e => (Raise e, [PutObject bucket_name k data content_type])
  | Ok _ =>
      match generate_presigned_url s3 bucket_name k 3600 with
      | Raise e =>
          (Raise e, [PutObject bucket_name k data content_type;
                     GeneratePresignedUrl bucket_name k 3600])
      | Ok url =>
          (Ok {| bucket := bucket_name; key := k; presigned_url := url |},
           [PutObject bucket_name k data content_type;
            GeneratePresignedUrl bucket_name k 3600])
      end
  end.
Proof.
  intros Hs3 Hdata Hct k.
  destruct (upload_steps w bucket_name payload filename s3 data Hs3 Hdata)
    as (ct & Hct' & ->).
  rewrite Hct in Hct'. injection Hct' as <-. fold k.
  unfold perform, bind, ret.
  destruct (put_object s3 bucket_name k data content_type) as [[] | e]; [| reflexivity].
  destruct (generate_presigned_url s3 bucket_name k 3600) as [url | e]; reflexivity.
Qed.

(** A store that works, and a store that writes but cannot sign. *)
Lemma upload_outcome_witness :
  upload_media_from_base64
    (Sample.world Sample.s3_up None (Sample.responses_client (py "T")))
    (py "garage-media") (PStr (py "aGVsbG8=")) (PStr (py "a/b/photo.png"))
  = (Ok Cases.photo_object,
     [PutObject (py "garage-media") (py "uploads/1700000000-photo.png")
                (py "hello") (py "image/png");
      GeneratePresignedUrl (py "garage-media") (py "uploads/1700000000-photo.png") 3600])
  /\ upload_media_from_base64
       (Sample.world Cases.s3_unsigned None (Sample.responses_client (py "T")))
       (py "garage-media") (PStr (py "aGVsbG8=")) (PStr (py "a/b/photo.png"))
     = (Raise (Exn NoCredentialsError (py "Unable to locate credentials")),
        [PutObject (py "garage-media") (py "uploads/1700000000-photo.png")
                   (py "hello") (py "image/png");
         GeneratePresignedUrl (py "garage-media") (py "uploads/1700000000-photo.png") 3600]).
Proof.
  split.
  - apply (upload_outcome
             (Sample.world Sample.s3_up None (Sample.responses_client (py "T")))
             (py "garage-media") (PStr (py "aGVsbG8=")) (py "a/b/photo.png")
             Sample.s3_up (py "hello") (py "image/png")); reflexivity.
  - apply (upload_outcome
             (Sample.world Cases.s3_unsigned None (Sample.responses_client (py "T")))
             (py "garage-media") (PStr (py "aGVsbG8=")) (py "a/b/photo.png")
             Cases.s3_unsigned (py "hello") (py "image/png")); reflexivity.
Defined.

(** The content type of a file name is never empty. *)
Lemma guess_content_type_not_empty (w : World) (filename : pyval) (content_type : str) :
  _guess_content_type w filename = Ok content_type -> content_type <> [].
Proof.
  unfold _guess_content_type.
  destruct filename as [| b | z | f | s | l | d]; try discriminate.
  destruct (guess_type w s) as [[| c t] |]; intros H; injection H as <-; discriminate.
Qed.

(** X11.  Whatever the upload writes, it writes to the bucket it was given,
    under the key made of the clock and of the base name of the file name,
    the bytes the payload decodes to, with a content type that is not
    empty: the one guessed from the file name, and
    [application/octet-stream] when there is no guess. *)
Theorem every_write_of_upload
        (w : World) (bucket_name : str) (payload filename : pyval)
        (b k : str) (d : bytes) (c : str) :
  In (PutObject b k d c)
     (snd (upload_media_from_base64 w bucket_name payload filename)) ->
  b = bucket_name
  /\ c <> []
  /\ exists name : str,
      filename = PStr name
      /\ k = py "uploads/" ++ int_str (clock w) ++ py "-" ++ basename name
      /\ Base64.b64decode payload = Ok d
      /\ c = match guess_type w name with
             | Some (x :: t) => x :: t
             | _ => py "application/octet-stream"
             end.
Proof.
  intros Hin.
  destruct (_get_s3_client w) as [s3 | e] eqn:Hs3;
    [| rewrite (upload_without_client w bucket_name payload filename e Hs3) in Hin;
       contradiction].
  destruct (Base64.b64decode payload) as [data | e] eqn:Hb;
    [| rewrite (upload_bad_payload w bucket_name payload filename s3 e Hs3 Hb) in Hin;
       contradiction].
  destruct filename as [| b0 | z | f | name | l | d0];
    try (unfold upload_media_from_base64 in Hin;
         rewrite Hs3, bind_lift_ok, Hb in Hin; cbn [rtry] in Hin;
         rewrite bind_lift_ok in Hin; cbn in Hin; contradiction).
  destruct (upload_steps w bucket_name payload name s3 data Hs3 Hb) as (ct & Hct & Hup).
  assert (Hput : PutObject b k d c = PutObject bucket_name (expected_key w name) data ct).
  { rewrite Hup in Hin. unfold perform, bind, ret in Hin.
    destruct (put_object s3 bucket_name (expected_key w name) data ct) as [[] | e].
    - destruct (generate_presigned_url s3 bucket_name (expected_key w name) 3600);
        cbn in Hin; destruct Hin as [H | [H | []]]; try discriminate; symmetry; exact H.
    - cbn in Hin. destruct Hin as [H | []]. symmetry. exact H. }
  injection Hput as -> -> -> ->.
  split; [reflexivity |].
  split; [exact (guess_content_type_not_empty w (PStr name) ct Hct) |].
  exists name. repeat split.
  unfold _guess_content_type in Hct.
  destruct (guess_type w name) as [[| x t] |]; injection Hct as <-; reflexivity.
Qed.

Lemma every_write_of_upload_witness :
  py "garage-media" = py "garage-media"
  /\ py "application/octet-stream" <> []
  /\ exists name : str,
      PStr (py "dir/engine.bin") = PStr name
      /\ py "uploads/1700000000-engine.bin"
         = py "uploads/" ++ int_str 1700000000 ++ py "-" ++ basename name
      /\ Base64.b64decode (PStr (py "aGVsbG8=")) = Ok (py "hello")
      /\ py "application/octet-stream"
         = match (if str_eqb (basename name) (py "photo.png")
                  then Some (py "image/png") else None) with
           | Some (x :: t) => x :: t
           | _ => py "application/octet-stream"
           end.
Proof.
  apply (every_write_of_upload
           (Sample.world Sample.s3_up None (Sample.responses_client (py "T")))
           (py "garage-media") (PStr (py "aGVsbG8=")) (PStr (py "dir/engine.bin"))).
  vm_compute. left. reflexivity.
Defined.

(** The decimal text of an integer is made of digits and, in front, a minus
    sign. *)
Lemma uint_digits (d : Decimal.uint) :
  Forall (fun c => Json.is_digit c = true) (py (NilEmpty.string_of_uint d)).
Proof.
  induction d; cbn [NilEmpty.string_of_uint];
    [apply Forall_nil | ..]; (apply Forall_cons; [reflexivity | exact IHd]).
Qed.

Lemma int_str_chars (z : Z) :
  Forall (fun c => Json.is_digit c = true \/ c = chr "-") (int_str z).
Proof.
  assert (Hu : forall d, Forall (fun c => Json.is_digit c = true \/ c = chr "-")
                                (py (NilZero.string_of_uint d))).
  { intros d.
    assert (Hd : Forall (fun c => Json.is_digit c = true \/ c = chr "-")
                        (py (NilEmpty.string_of_uint d))).
    { eapply Forall_impl; [| apply uint_digits]. intros c Hc. left. exact Hc. }
    destruct d; try exact Hd.
    apply Forall_cons; [left; reflexivity | apply Forall_nil]. }
  unfold int_str, NilZero.string_of_int.
  destruct (Z.to_int z) as [d | d].
  - apply Hu.
  - apply Forall_cons; [right; reflexivity | apply Hu].
Qed.

Lemma int_str_no_separator (z : Z) : ~ In (chr "/") (int_str z).
Proof.
  intros Hin. pose proof (int_str_chars z) as H.
  rewrite Forall_forall in H. destruct (H _ Hin) as [Hd | Hm]; discriminate.
Qed.

(** What an upload that ends well was given and returns. *)
Lemma upload_ok_inv (w : World) (bucket_name : str) (payload filename : pyval)
      (o : S3Object) (t : list effect) :
  upload_media_from_base64 w bucket_name payload filename = (Ok o, t) ->
  exists name : str,
    filename = PStr name
    /\ bucket o = bucket_name
    /\ key o = expected_key w name
    /\ t = [PutObject bucket_name (expected_key w name)
                      match Base64.b64decode payload with Ok d => d | Raise _ => [] end
                      match _guess_content_type w filename with Ok c => c | Raise _ => [] end;
            GeneratePresignedUrl bucket_name (expected_key w name) 3600].
Proof.
  intros H.
  destruct (_get_s3_client w) as [s3 | e] eqn:Hs3;
    [| rewrite (upload_without_client w bucket_name payload filename e Hs3) in H;
       discriminate].
  destruct (Base64.b64decode payload) as [data | e] eqn:Hb;
    [| rewrite (upload_bad_payload w bucket_name payload filename s3 e Hs3 Hb) in H;
       discriminate].
  destruct filename as [| b0 | z | f | name | l | d0];
    try (unfold upload_media_from_base64 in H;
         rewrite Hs3, bind_lift_ok, Hb in H; cbn [rtry] in H;
         rewrite bind_lift_ok in H; cbn in H; discriminate).
  destruct (upload_steps w bucket_name payload name s3 data Hs3 Hb) as (ct & Hct & Hup).
  rewrite Hup in H. rewrite Hct. unfold perform, bind, ret in H.
  destruct (put_object s3 bucket_name (expected_key w name) data ct) as [[] | e];
    [| discriminate].
  destruct (generate_presigned_url s3 bucket_name (expected_key w name) 3600) as [url | e];
    [| discriminate].
  cbn in H. injection H as <- <-. exists name. repeat split.
Qed.

(** X12.  The key of an object the upload returns is [uploads/] followed by
    a name that holds no separator, whatever the file name was: the object
    lies directly under [uploads/], and a file name with directories or
    with [..] components cannot move it elsewhere. *)
Theorem object_key_is_flat
        (w : World) (bucket_name : str) (payload filename : pyval)
        (o : S3Object) (t : list effect) :
  upload_media_from_base64 w bucket_name payload filename = (Ok o, t) ->
  exists name : str,
    key o = py "uploads/" ++ name
    /\ name <> []
    /\ ~ In (chr "/") name.
Proof.
  intros H.
  destruct (upload_ok_inv w bucket_name payload filename o t H)
    as (fname & _ & _ & Hkey & _).
  exists (int_str (clock w) ++ py "-" ++ basename fname).
  split; [exact Hkey | split].
  - intros Hnil. apply app_eq_nil in Hnil as [_ Hnil]. discriminate.
  - intros Hin. apply in_app_or in Hin as [Hin | Hin].
    + exact (int_str_no_separator _ Hin).
    + destruct Hin as [Hin | Hin]; [discriminate |].
      exact (basename_no_separator fname Hin).
Qed.

(** A file name that climbs out of its directory. *)
Lemma object_key_is_flat_witness :
  exists name : str,
    py "uploads/1700000000-passwd" = py "uploads/" ++ name
    /\ name <> []
    /\ ~ In (chr "/") name.
Proof.
  apply (object_key_is_flat
           (Sample.world Sample.s3_up None (Sample.responses_client (py "T")))
           (py "garage-media") (PStr (py "aGVsbG8=")) (PStr (py "../../etc/passwd"))
           {| bucket := py "garage-media";
              key := py "uploads/1700000000-passwd";
              presigned_url :=
                py "https://s3.example/garage-media/uploads/1700000000-passwd" |}
           [PutObject (py "garage-media") (py "uploads/1700000000-passwd")
                      (py "hello") (py "application/octet-stream");
            GeneratePresignedUrl (py "garage-media") (py "uploads/1700000000-passwd") 3600]).
  vm_compute. reflexivity.
Defined.

(* ================================================================== *)
(** * More on the model invocation *)
(* ================================================================== *)

Section AfterMedia.

Variable w : World.
Variable event : pydict.
Variable r : DiagnosticRequest.
Variable media_object : option S3Object.
Variable t0 : list effect.

Hypothesis Hrequest : from_event event = Ok r.
Hypothesis Hmedia : store_media w r = (Ok media_object, t0).

(** Once the media step has ended well, the handler ends as the invocation
    of the model does. *)
Lemma handler_of_invocation :
  lambda_handler w event =
  match _invoke_openai w (_build_messages r media_object) with
  | (Ok response, t) => (Ok (success response), t0 ++ t)
  | (Raise e, t) =>
      if isinstance e caught then (Ok (failure e), t0 ++ t) else (Raise e, t0 ++ t)
  end.
Proof.
  rewrite (handler_of_request w event r Hrequest), (bind_ok _ _ t0 _ Hmedia).
  destruct (_invoke_openai w (_build_messages r media_object)) as [[response | e] t].
  - cbn. rewrite app_nil_r. reflexivity.
  - cbn. destruct (isinstance e caught); cbn; rewrite ?app_nil_r; reflexivity.
Qed.

(** The same, from the text of the reply on. *)
Lemma handler_of_reply (reply : pyval) (t : list effect) :
  model_text w (_build_messages r media_object) = (Ok reply, t) ->
  lambda_handler w event =
  match py_strip reply with
  | Ok [] =>
      (Ok (failure (Exn RuntimeError (py "OpenAI returned an empty response"))), t0 ++ t)
  | Ok text =>
      match normalize text with
      | Ok response => (Ok (success response), t0 ++ t)
      | Raise e =>
          if isinstance e caught then (Ok (failure e), t0 ++ t) else (Raise e, t0 ++ t)
      end
  | Raise e =>
      if isinstance e caught then (Ok (failure e), t0 ++ t) else (Raise e, t0 ++ t)
  end.
Proof.
  intros Hm. rewrite handler_of_invocation, (invoke_of_text w _ reply t Hm).
  destruct (py_strip reply) as [[| c text] | e]; reflexivity.
Qed.

Lemma handler_of_model_failure (e : exn) (t : list effect) :
  model_text w (_build_messages r media_object) = (Raise e, t) ->
  lambda_handler w event =
  if isinstance e caught then (Ok (failure e), t0 ++ t) else (Raise e, t0 ++ t).
Proof.
  intros Hm. rewrite handler_of_invocation. unfold _invoke_openai.
  rewrite (bind_raise _ e t _ Hm). reflexivity.
Qed.

End AfterMedia.

(** X13.  With an API key, the model is called exactly once, with the model
    name of the configuration and a ceiling of 800 tokens: through
    [responses.create] whenever the client has it, chat completions being
    left alone even if present, and through [chat.completions.create] only
    when it has not.  A client with neither is not called at all,
    [_invoke_openai] raising a [RuntimeError]. *)
Theorem model_path_selection (w : World) (messages : list pyval) :
  truthy_env (env_OPENAI_API_KEY w) = true ->
  match responses_create (openai_OpenAI w), chat_completions_create (openai_OpenAI w) with
  | Some _, _ =>
      snd (_invoke_openai w messages) = [ResponsesCreate (OPENAI_MODEL w) messages 800]
  | None, Some _ =>
      snd (_invoke_openai w messages) = [ChatCompletionsCreate (OPENAI_MODEL w) messages 800]
  | None, None =>
      _invoke_openai w messages =
      (Raise (Exn RuntimeError
                  (py "OpenAI client does not support responses or chat completions APIs")),
       [])
  end.
Proof.
  intros Hkey.
  assert (Hclient : _init_openai_client w = Ok (openai_OpenAI w)).
  { unfold _init_openai_client. rewrite Hkey. reflexivity. }
  destruct (responses_create (openai_OpenAI w)) as [create |] eqn:Hr.
  - rewrite invoke_trace. unfold model_text. rewrite Hclient, bind_lift_ok, Hr.
    unfold perform, bind, ret.
    destruct (create (OPENAI_MODEL w) messages 800%Z); reflexivity.
  - destruct (chat_completions_create (openai_OpenAI w)) as [create |] eqn:Hc.
    + rewrite invoke_trace. unfold model_text. rewrite Hclient, bind_lift_ok, Hr, Hc.
      unfold perform, bind, lift.
      destruct (create (OPENAI_MODEL w) messages 800%Z) as [completion | e];
        [| reflexivity].
      destruct (completion_text completion); reflexivity.
    + unfold _invoke_openai, model_text. rewrite Hclient, bind_lift_ok, Hr, Hc.
      reflexivity.
Qed.

(** A client with both APIs is asked through the first. *)
Lemma model_path_selection_witness :
  snd (_invoke_openai (Cases.world_of (Some (py "sk-test")) None Cases.both_client)
                      (_build_messages Sample.plain_request None))
  = [ResponsesCreate (py "gpt-4o") (_build_messages Sample.plain_request None) 800].
Proof.
  apply (model_path_selection
           (Cases.world_of (Some (py "sk-test")) None Cases.both_client)
           (_build_messages Sample.plain_request None)).
  reflexivity.
Defined.

(** X14.  Without an API key (the variable is unset or empty) the model is
    not called and the handler returns status 400 with [OPENAI_API_KEY
    environment variable is not set].  The key is only looked for after the
    media step: the calls of a media step that ended well, the write of the
    object among them, have been made by then. *)
Theorem missing_api_key_is_refused
        (w : World) (event : pydict) (r : DiagnosticRequest)
        (media_object : option S3Object) (t0 : list effect) :
  from_event event = Ok r ->
  store_media w r = (Ok media_object, t0) ->
  truthy_env (env_OPENAI_API_KEY w) = false ->
  lambda_handler w event =
  (Ok {| statusCode := 400;
         headers := json_headers;
         body := json_dumps
                   (PDict [ (py "error",
                             PStr (py "OPENAI_API_KEY environment variable is not set")) ]) |},
   t0).
Proof.
  intros Hr Hs Hkey.
  rewrite (handler_of_model_failure
             w event r media_object t0 Hr Hs
             (Exn RuntimeError (py "OPENAI_API_KEY environment variable is not set")) []).
  - cbn. rewrite app_nil_r. reflexivity.
  - unfold model_text, _init_openai_client. rewrite Hkey. reflexivity.
Qed.

(** The request with a photo, a store that works, and no key: the photo is
    stored, and the answer is the error. *)
Lemma missing_api_key_is_refused_witness :
  lambda_handler (Cases.world_of None (Some (Ok Sample.s3_up)) (Sample.responses_client (py "T")))
                 Sample.photo_event
  = (Ok (failure (Exn RuntimeError (py "OPENAI_API_KEY environment variable is not set"))),
     [PutObject (py "garage-media") (py "uploads/1700000000-photo.png")
                (py "hello") (py "application/octet-stream");
      GeneratePresignedUrl (py "garage-media") (py "uploads/1700000000-photo.png") 3600]).
Proof.
  apply (missing_api_key_is_refused
           (Cases.world_of None (Some (Ok Sample.s3_up)) (Sample.responses_client (py "T")))
           Sample.photo_event Sample.photo_request (Some Cases.photo_object)).
  - vm_compute. reflexivity.
  - vm_compute. reflexivity.
  - reflexivity.
Defined.

(** X15.  An exception raised while the model is asked (by the client's
    call, or by the reading of its completion) ends the handler with the
    error envelope when its class derives from [ValueError],
    [RuntimeError] or [BotoCoreError], and reaches the runtime otherwise;
    the errors of the openai package are of the second kind. *)
Theorem model_failure_outcome
        (w : World) (event : pydict) (r : DiagnosticRequest)
        (media_object : option S3Object) (t0 : list effect)
        (e : exn) (t : list effect) :
  from_event event = Ok r ->
  store_media w r = (Ok media_object, t0) ->
  model_text w (_build_messages r media_object) = (Raise e, t) ->
  (isinstance e caught = true ->
   lambda_handler w event =
   (Ok {| statusCode := 400;
          headers := json_headers;
          body := json_dumps (PDict [ (py "error", PStr (exc_message e)) ]) |},
    t0 ++ t))
  /\ (isinstance e caught = false -> lambda_handler w event = (Raise e, t0 ++ t))
  /\ (exc_type e = OpenAIError -> lambda_handler w event = (Raise e, t0 ++ t)).
Proof.
  intros Hr Hs Hm.
  rewrite (handler_of_model_failure w event r media_object t0 Hr Hs e t Hm).
  split; [| split].
  - intros ->. reflexivity.
  - intros ->. reflexivity.
  - intros Hc. destruct e as [c msg]. cbn in Hc. subst c. reflexivity.
Qed.

Lemma model_failure_outcome_witness :
  lambda_handler (Cases.world_of (Some (py "sk-test")) None Cases.failing_client)
                 Sample.plain_event
  = (Raise (Exn OpenAIError (py "Connection error.")),
     [ResponsesCreate (py "gpt-4o") (_build_messages Sample.plain_request None) 800]).
Proof.
  apply (proj2 (proj2 (model_failure_outcome
                         (Cases.world_of (Some (py "sk-test")) None Cases.failing_client)
                         Sample.plain_event Sample.plain_request None []
                         (Exn OpenAIError (py "Connection error."))
                         [ResponsesCreate (py "gpt-4o")
                                          (_build_messages Sample.plain_request None) 800]
                         eq_refl eq_refl eq_refl))).
  reflexivity.
Defined.










(* ================================================================== *)
(** * The handler as a whole *)
(* ================================================================== *)

(** X20.  The handler returns status 200 exactly when a request was built,
    the media step ended well, and the model gave a text that, once
    stripped, is not empty and that [normalize] could read; the body is
    then the dict of the normalised response, and the calls made are those
    of the media step followed by those of the invocation. *)
Theorem status_200_iff (w : World) (event : pydict) (resp : http_response)
        (t : list effect) :
  (lambda_handler w event = (Ok resp, t) /\ statusCode resp = 200%Z)
  <-> exists (r : DiagnosticRequest) (media_object : option S3Object)
             (t0 : list effect) (reply : pyval) (t1 : list effect)
             (text : str) (response : DiagnosticResponse),
      from_event event = Ok r
      /\ store_media w r = (Ok media_object, t0)
      /\ model_text w (_build_messages r media_object) = (Ok reply, t1)
      /\ py_strip reply = Ok text
      /\ text <> []
      /\ normalize text = Ok response
      /\ resp = {| statusCode := 200;
                   headers := json_headers;
                   body := json_dumps (as_dict response) |}
      /\ t = t0 ++ t1.
Proof.
  split.
  - intros [H Hs]. exact (handler_success_inv w event resp t H Hs).
  - intros (r & mo & t0 & reply & t1 & text & response
            & Hr & Hm & Hv & Ht & Hne & Hn & -> & ->).
    split; [| reflexivity].
    rewrite (handler_of_reply w event r mo t0 Hr Hm reply t1 Hv), Ht.
    destruct text as [| c text]; [contradiction |].
    rewrite Hn. reflexivity.
Qed.

(** The plain request and a model that answers in prose. *)
Lemma status_200_iff_witness :
  lambda_handler
    (Sample.world Sample.s3_up None (Sample.responses_client (py " Check the fuses. ")))
    Sample.plain_event
  = (Ok {| statusCode := 200;
           headers := json_headers;
           body := report_body (PStr (py "Check the fuses.")) [] [] [] |},
     [ResponsesCreate (py "gpt-4o-mini") (_build_messages Sample.plain_request None) 800])
  /\ statusCode {| statusCode := 200;
                   headers := json_headers;
                   body := report_body (PStr (py "Check the fuses.")) [] [] [] |} = 200%Z.
Proof.
  apply (proj2 (status_200_iff _ _ _ _)).
  exists Sample.plain_request, None, [], (PStr (py " Check the fuses. ")),
         [ResponsesCreate (py "gpt-4o-mini") (_build_messages Sample.plain_request None) 800],
         (py "Check the fuses."),
         {| summary := PStr (py "Check the fuses.");
            potential_causes := [];
            safety_checks := [];
            recommended_actions := [] |}.
  split; [vm_compute; reflexivity |].
  split; [reflexivity |].
  split; [reflexivity |].
  split; [vm_compute; reflexivity |].
  split; [discriminate |].
  split; [vm_compute; reflexivity |].
  split; reflexivity.
Defined.

(** X21.  Whatever the handler returns is an envelope with the JSON content
    type and status 200 or 400: with 200 the body is the dict of a response,
    with its four names; with 400 the body holds, under [error] alone, the
    text of an exception whose class derives from [ValueError],
    [RuntimeError] or [BotoCoreError]. *)
Theorem envelope_shape (w : World) (event : pydict) (resp : http_response)
        (t : list effect) :
  lambda_handler w event = (Ok resp, t) ->
  headers resp = [ (py "Content-Type", PStr (py "application/json")) ]
  /\ ((statusCode resp = 200%Z
       /\ exists s pc sc ra,
           body resp = json_dumps (PDict [ (py "summary", s);
                                           (py "potential_causes", PList pc);
                                           (py "safety_checks", PList sc);
                                           (py "recommended_actions", PList ra) ]))
      \/ (statusCode resp = 400%Z
          /\ exists e, isinstance e caught = true
                       /\ body resp = json_dumps (PDict [ (py "error", PStr (exc_message e)) ]))).
Proof.
  unfold lambda_handler.
  set (m := bind (lift (from_event event)) _).
  destruct m as [[a | e] t'] eqn:Hm; unfold try_except.
  - intros H. injection H as <- <-.
    unfold m in Hm.
    apply bind_ok_inv in Hm as (r & ta & tb & _ & Hm & _).
    apply bind_ok_inv in Hm as (mo & tc & td & _ & Hm & _).
    apply bind_ok_inv in Hm as (response & te & tf & _ & Hm & _).
    unfold ret in Hm. injection Hm as <- _.
    split; [reflexivity |]. left. split; [reflexivity |].
    exists (summary response), (potential_causes response),
           (safety_checks response), (recommended_actions response).
    reflexivity.
  - destruct (isinstance e caught) eqn:Hc; [| discriminate].
    cbn. intros H. injection H as <- _.
    split; [reflexivity |]. right. split; [reflexivity |].
    exists e. split; [exact Hc | reflexivity].
Qed.

Lemma envelope_shape_witness :
  headers (failure (Exn RuntimeError (py "S3_BUCKET environment variable is not set")))
  = [ (py "Content-Type", PStr (py "application/json")) ]
  /\ ((statusCode (failure (Exn RuntimeError (py "S3_BUCKET environment variable is not set")))
       = 200%Z
       /\ exists s pc sc ra,
           body (failure (Exn RuntimeError (py "S3_BUCKET environment variable is not set")))
           = json_dumps (PDict [ (py "summary", s);
                                 (py "potential_causes", PList pc);
                                 (py "safety_checks", PList sc);
                                 (py "recommended_actions", PList ra) ]))
      \/ (statusCode (failure (Exn RuntimeError (py "S3_BUCKET environment variable is not set")))
          = 400%Z
          /\ exists e, isinstance e caught = true
                       /\ body (failure (Exn RuntimeError
                                             (py "S3_BUCKET environment variable is not set")))
                          = json_dumps (PDict [ (py "error", PStr (exc_message e)) ]))).
Proof.
  apply (envelope_shape
           (Sample.world Sample.s3_up None (Sample.responses_client (py "T")))
           Sample.photo_event _ []).
  vm_compute. reflexivity.
Defined.

(** X22.  No exception whose class derives from [ValueError],
    [RuntimeError] or [BotoCoreError] ever leaves the handler: whatever
    reaches the runtime is of another class. *)
Theorem escaping_exception_is_uncaught (w : World) (event : pydict) (e : exn)
        (t : list effect) :
  lambda_handler w event = (Raise e, t) ->
  isinstance e caught = false
  /\ exc_type e <> ValueError /\ exc_type e <> JSONDecodeError
  /\ exc_type e <> BinasciiError /\ exc_type e <> UnicodeDecodeError
  /\ exc_type e <> RuntimeError /\ exc_type e <> BotoCoreError
  /\ exc_type e <> EndpointConnectionError /\ exc_type e <> NoCredentialsError.
Proof.
  unfold lambda_handler.
  set (m := bind (lift (from_event event)) _).
  destruct m as [[a | e'] t']; unfold try_except; [discriminate |].
  destruct (isinstance e' caught) eqn:Hc; [discriminate |].
  intros H. injection H as <- _.
  split; [exact Hc |].
  destruct e' as [c msg]. rewrite caught_classes in Hc.
  destruct c; try discriminate; cbn; repeat split; discriminate.
Qed.

Lemma escaping_exception_is_uncaught_witness :
  isinstance (Exn AttributeError (py "'list' object has no attribute 'get'")) caught = false
  /\ AttributeError <> ValueError /\ AttributeError <> JSONDecodeError
  /\ AttributeError <> BinasciiError /\ AttributeError <> UnicodeDecodeError
  /\ AttributeError <> RuntimeError /\ AttributeError <> BotoCoreError
  /\ AttributeError <> EndpointConnectionError /\ AttributeError <> NoCredentialsError.
Proof.
  apply (escaping_exception_is_uncaught
           (Sample.world Sample.s3_up None (Sample.responses_client (py "T")))
           (Sample.event_of (py "[]"))
           (Exn AttributeError (py "'list' object has no attribute 'get'")) []).
  vm_compute. reflexivity.
Defined.

(** The calls of an upload: none, the write alone when it failed, or the
    write and the signing; it ends well only in the last case. *)
Lemma upload_trace_shape (w : World) (bucket_name : str) (payload filename : pyval) :
  (exists e, upload_media_from_base64 w bucket_name payload filename = (Raise e, []))
  \/ (exists e k d c,
         upload_media_from_base64 w bucket_name payload filename
         = (Raise e, [PutObject bucket_name k d c]))
  \/ (exists res k d c,
         upload_media_from_base64 w bucket_name payload filename
         = (res, [PutObject bucket_name k d c; GeneratePresignedUrl bucket_name k 3600])).
Proof.
  destruct (_get_s3_client w) as [s3 | e] eqn:Hs3;
    [| left; exists e; exact (upload_without_client w bucket_name payload filename e Hs3)].
  destruct (Base64.b64decode payload) as [data | e] eqn:Hb;
    [| left; eexists; exact (upload_bad_payload w bucket_name payload filename s3 e Hs3 Hb)].
  destruct filename as [| b0 | z | f | name | l | d0];
    try (left; unfold upload_media_from_base64;
         rewrite Hs3, bind_lift_ok, Hb; cbn [rtry];
         rewrite bind_lift_ok; eexists; reflexivity).
  destruct (upload_steps w bucket_name payload name s3 data Hs3 Hb) as (ct & _ & ->).
  unfold perform, bind, ret.
  destruct (put_object s3 bucket_name (expected_key w name) data ct) as [[] | e].
  - right. right.
    destruct (generate_presigned_url s3 bucket_name (expected_key w name) 3600);
      do 4 eexists; reflexivity.
  - right. left. do 4 eexists. reflexivity.
Qed.

(** The calls of the media step, and how it ended when the write was its
    last call. *)
Lemma store_media_trace_shape (w : World) (r : DiagnosticRequest) :
  snd (store_media w r) = []
  \/ (exists e b k d c, store_media w r = (Raise e, [PutObject b k d c]))
  \/ (exists b k d c,
         snd (store_media w r) = [PutObject b k d c; GeneratePresignedUrl b k 3600]).
Proof.
  unfold store_media.
  destruct (truthy (media_base64 r) && truthy (media_filename r)); [| left; reflexivity].
  destruct (negb (truthy_env (S3_BUCKET w))); [left; reflexivity |].
  destruct (upload_trace_shape w (env_value (S3_BUCKET w))
              (media_base64 r) (media_filename r))
    as [(e & ->) | [(e & k & d & c & ->) | (res & k & d & c & ->)]].
  - left. reflexivity.
  - right. left. do 5 eexists. reflexivity.
  - right. right. exists (env_value (S3_BUCKET w)), k, d, c.
    destruct res; reflexivity.
Qed.

(** X23.  In one run the handler writes at most one object, signs at most
    one URL, for the object just written, with a validity of 3600 seconds,
    and asks the model at most once, with a ceiling of 800 tokens, in that
    order.  The model is never asked after a write that was not followed by
    the signing. *)
Theorem calls_of_a_run (w : World) (event : pydict) :
  exists stored asked : list effect,
    snd (lambda_handler w event) = stored ++ asked
    /\ (stored = []
        \/ (exists b k d c, stored = [PutObject b k d c])
        \/ (exists b k d c, stored = [PutObject b k d c; GeneratePresignedUrl b k 3600]))
    /\ (asked = []
        \/ (exists messages, asked = [ResponsesCreate (OPENAI_MODEL w) messages 800])
        \/ (exists messages, asked = [ChatCompletionsCreate (OPENAI_MODEL w) messages 800]))
    /\ ((exists b k d c, stored = [PutObject b k d c]) -> asked = []).
Proof.
  destruct (from_event event) as [r | e] eqn:Hr.
  - destruct (store_media w r) as [[mo | e] t0] eqn:Hs.
    + exists t0, (snd (_invoke_openai w (_build_messages r mo))).
      split; [| split; [| split]].
      * rewrite (handler_of_invocation w event r mo t0 Hr Hs).
        destruct (_invoke_openai w (_build_messages r mo)) as [[response | e] t];
          [reflexivity |].
        destruct (isinstance e caught); reflexivity.
      * destruct (store_media_trace_shape w r) as [H | [(e & b & k & d & c & H) | H]];
          rewrite Hs in H.
        -- left. exact H.
        -- discriminate.
        -- right. right. exact H.
      * rewrite invoke_trace.
        destruct (model_text_trace w (_build_messages r mo)) as [H | [H | H]];
          rewrite H; eauto.
      * intros (b & k & d & c & ->).
        destruct (store_media_trace_shape w r) as [H | [(e & b' & k' & d' & c' & H) | H]];
          rewrite Hs in H; try discriminate.
        destruct H as (b' & k' & d' & c' & H). discriminate.
    + exists t0, []. rewrite app_nil_r.
      split; [| split; [| split]].
      * rewrite (handler_of_store_failure w event r e t0 Hr Hs).
        destruct (isinstance e caught); reflexivity.
      * destruct (store_media_trace_shape w r) as [H | [(e' & b & k & d & c & H) | H]];
          rewrite Hs in H.
        -- left. exact H.
        -- right. left. injection H as _ ->. eauto.
        -- right. right. exact H.
      * left. reflexivity.
      * reflexivity.
  - exists [], []. split; [| split; [| split]].
    + rewrite (handler_of_error w event e Hr).
      destruct (isinstance e caught); reflexivity.
    + left. reflexivity.
    + left. reflexivity.
    + reflexivity.
Qed.

(** X24.  When the upload ends well, the conversation the model is asked
    with is the one about the trimmed description and the stored object:
    its user entry holds the text segment and, after it, the image segment
    with the URL that was signed for the object just written.  The model is
    asked after the two calls on the store, and at most once. *)
Theorem stored_media_reaches_model
        (w : World) (event : pydict) (r : DiagnosticRequest)
        (o : S3Object) (t0 : list effect) :
  from_event event = Ok r ->
  truthy (media_base64 r) && truthy (media_filename r) = true ->
  truthy_env (S3_BUCKET w) = true ->
  upload_media_from_base64 w (env_value (S3_BUCKET w))
    (media_base64 r) (media_filename r) = (Ok o, t0) ->
  let messages := conversation_with_image (description r) (presigned_url o) in
  exists asked : list effect,
    snd (lambda_handler w event)
    = [PutObject (env_value (S3_BUCKET w)) (key o)
                 match Base64.b64decode (media_base64 r) with Ok d => d | Raise _ => [] end
                 match _guess_content_type w (media_filename r) with
                 | Ok c => c
                 | Raise _ => []
                 end;
       GeneratePresignedUrl (env_value (S3_BUCKET w)) (key o) 3600]
      ++ asked
    /\ (asked = []
        \/ asked = [ResponsesCreate (OPENAI_MODEL w) messages 800]
        \/ asked = [ChatCompletionsCreate (OPENAI_MODEL w) messages 800]).
Proof.
  intros Hr Hw Hb Hup messages.
  assert (Hs : store_media w r = (Ok (Some o), t0)).
  { rewrite (store_media_wanted w r Hw), Hb. cbn [negb].
    rewrite (bind_ok _ o t0 _ Hup). cbn. rewrite app_nil_r. reflexivity. }
  destruct (upload_ok_inv w _ _ _ o t0 Hup) as (name & Hname & _ & Hkey & Ht0).
  exists (snd (_invoke_openai w (_build_messages r (Some o)))). split.
  - rewrite (handler_of_invocation w event r (Some o) t0 Hr Hs).
    rewrite Hkey, <- Ht0.
    destruct (_invoke_openai w (_build_messages r (Some o))) as [[response | e] t];
      [reflexivity |].
    destruct (isinstance e caught); reflexivity.
  - rewrite invoke_trace.
    change (_build_messages r (Some o)) with messages.
    exact (model_text_trace w messages).
Qed.

Lemma stored_media_reaches_model_witness :
  exists asked : list effect,
    snd (lambda_handler
           (Sample.world Sample.s3_up (Some (py "garage-media"))
                         (Sample.responses_client (py "T")))
           Sample.photo_event)
    = [PutObject (py "garage-media") (py "uploads/1700000000-photo.png")
                 (py "hello") (py "image/png");
       GeneratePresignedUrl (py "garage-media") (py "uploads/1700000000-photo.png") 3600]
      ++ asked
    /\ (asked = []
        \/ asked = [ResponsesCreate (py "gpt-4o-mini")
                      (conversation_with_image
                         (py "Oil leak")
                         (py "https://s3.example/garage-media/uploads/1700000000-photo.png"))
                      800]
        \/ asked = [ChatCompletionsCreate (py "gpt-4o-mini")
                      (conversation_with_image
                         (py "Oil leak")
                         (py "https://s3.example/garage-media/uploads/1700000000-photo.png"))
                      800]).
Proof.
  apply (stored_media_reaches_model
           (Sample.world Sample.s3_up (Some (py "garage-media"))
                         (Sample.responses_client (py "T")))
           Sample.photo_event Sample.photo_request Cases.photo_object
           [PutObject (py "garage-media") (py "uploads/1700000000-photo.png")
                      (py "hello") (py "image/png");
            GeneratePresignedUrl (py "garage-media") (py "uploads/1700000000-photo.png") 3600]).
  - vm_compute. reflexivity.
  - reflexivity.
  - reflexivity.
  - vm_compute. reflexivity.
Defined.

(* ================================================================== *)
(** * The provisioning script *)
(* ================================================================== *)

Section Provisioning.

Import Script.
Import CreateS3Bucket.

(** The code of an error response that has one. *)
Lemma error_code_of (response err : pydict) (code : pyval) :
  dict_lookup response (py "Error") = Some (PDict err) ->
  dict_lookup err (py "Code") = Some code ->
  error_code response = Done code.
Proof.
  intros He Hc. unfold error_code, dict_get. rewrite He. cbn [py_get].
  unfold dict_get. rewrite Hc. reflexivity.
Qed.

(** The answers of [bucket_exists]: a bucket is there when [head_bucket]
    succeeds or is refused with code 403, and is not there when the code is
    404, [NoSuchBucket] or [NotFound]; a [ClientError] with another code is
    raised again. *)
Lemma bucket_exists_answers (api : s3_api) (name : str) :
  (head_bucket api name = Done tt ->
   bucket_exists api name = (Done true, [HeadBucket name]))
  /\ (forall response message err code,
         head_bucket api name = Failed (ClientErr response message) ->
         dict_lookup response (py "Error") = Some (PDict err) ->
         dict_lookup err (py "Code") = Some (PStr code) ->
         bucket_exists api name =
         (if str_eqb code (py "404") || str_eqb code (py "NoSuchBucket")
             || str_eqb code (py "NotFound")
          then Done false
          else if str_eqb code (py "403") then Done true
               else Failed (ClientErr response message),
          [HeadBucket name])).
Proof.
  split.
  - intros H. unfold bucket_exists. rewrite H. reflexivity.
  - intros response message err code H He Hc. unfold bucket_exists. rewrite H.
    rewrite (error_code_of response err (PStr code) He Hc).
    cbn [code_in_missing code_is_403].
    destruct (str_eqb code (py "404") || str_eqb code (py "NoSuchBucket")
              || str_eqb code (py "NotFound")); reflexivity.
Qed.

(** The keyword arguments of the creation. *)
Lemma create_kwargs_eq (bucket_name acl region : str) :
  (if negb (str_eqb region (py "us-east-1")) then
     dict_set [ (py "Bucket", PStr bucket_name); (py "ACL", PStr acl) ]
              (py "CreateBucketConfiguration")
              (PDict [ (py "LocationConstraint", PStr region) ])
   else [ (py "Bucket", PStr bucket_name); (py "ACL", PStr acl) ])
  = [ (py "Bucket", PStr bucket_name); (py "ACL", PStr acl) ]
    ++ (if str_eqb region (py "us-east-1") then []
        else [ (py "CreateBucketConfiguration",
                PDict [ (py "LocationConstraint", PStr region) ]) ]).
Proof. destruct (str_eqb region (py "us-east-1")); reflexivity. Qed.

(** [create_bucket] with a session and a client at hand, by the answer of
    [bucket_exists]. *)
Lemma create_bucket_steps (s : session) (api : s3_api) (bucket_name region acl : str)
      (answer : outcome bool) (t : list call) :
  client_s3 s (resolve_region region s) = Done api ->
  bucket_exists api bucket_name = (answer, t) ->
  let region' := resolve_region region s in
  let kwargs :=
    [ (py "Bucket", PStr bucket_name); (py "ACL", PStr acl) ]
    ++ (if str_eqb region' (py "us-east-1") then []
        else [ (py "CreateBucketConfiguration",
                PDict [ (py "LocationConstraint", PStr region') ]) ]) in
  create_bucket (Done s) bucket_name region acl =
  match answer with
  | Failed e => (Failed e, SessionClient (py "s3") region' :: t)
  | Done true =>
      (Done tt,
       SessionClient (py "s3") region' :: t
       ++ [Print (warning_sign ++ py " Bucket '" ++ bucket_name
                  ++ py "' already exists. Skipping creation.")])
  | Done false =>
      match create_bucket_call api kwargs with
      | Done _ =>
          (Done tt,
           SessionClient (py "s3") region' :: t
           ++ [CreateBucket kwargs;
               Print (check_mark ++ py " Created S3 bucket '" ++ bucket_name
                      ++ py "' in region '" ++ region' ++ py "'.")])
      | Failed e =>
          (Failed e, SessionClient (py "s3") region' :: t ++ [CreateBucket kwargs])
      end
  end.
Proof.
  intros Hc Hb region' kwargs. subst region' kwargs.
  unfold create_bucket, then_, request, print. cbv zeta.
  rewrite Hc, Hb.
  destruct answer as [[|] | e].
  - reflexivity.
  - rewrite create_kwargs_eq.
    destruct (create_bucket_call api _) as [[] | e]; reflexivity.
  - reflexivity.
Qed.

Lemma resolve_region_not_empty (region : str) (s : session) :
  resolve_region region s <> [].
Proof.
  unfold resolve_region. destruct region; [| discriminate].
  destruct (region_name s) as [[| c r] |]; discriminate.
Qed.

(** X25.  A bucket that is there is left alone: when [head_bucket] succeeds,
    or is refused with code 403 (the bucket belongs to someone else),
    [main] creates nothing, prints that the bucket already exists and exits
    with status 0. *)
Theorem existing_bucket_is_left_alone (s : session) (api : s3_api) (args : arguments) :
  client_s3 s (resolve_region (arg_region args) s) = Done api ->
  (head_bucket api (arg_bucket args) = Done tt
   \/ exists response message err,
       head_bucket api (arg_bucket args) = Failed (ClientErr response message)
       /\ dict_lookup response (py "Error") = Some (PDict err)
       /\ dict_lookup err (py "Code") = Some (PStr (py "403"))) ->
  main (Done s) args =
  (Done 0%Z,
   [ SessionClient (py "s3") (resolve_region (arg_region args) s);
     HeadBucket (arg_bucket args);
     Print (warning_sign ++ py " Bucket '" ++ arg_bucket args
            ++ py "' already exists. Skipping creation.") ]).
Proof.
  intros Hc Hhead.
  assert (Hb : bucket_exists api (arg_bucket args)
               = (Done true, [HeadBucket (arg_bucket args)])).
  { destruct Hhead as [H | (response & message & err & H & He & Hcode)].
    - exact (proj1 (bucket_exists_answers api (arg_bucket args)) H).
    - rewrite (proj2 (bucket_exists_answers api (arg_bucket args))
                     response message err (py "403") H He Hcode).
      reflexivity. }
  unfold main.
  rewrite (create_bucket_steps s api (arg_bucket args) (arg_region args) (arg_acl args)
             (Done true) _ Hc Hb).
  reflexivity.
Qed.

(** A bucket of someone else. *)
Lemma existing_bucket_is_left_alone_witness :
  main (Done (Cases.provisioning_session (Cases.refusal (py "403")))) Cases.arguments_eu
  = (Done 0%Z,
     [ SessionClient (py "s3") (py "eu-west-1");
       HeadBucket (py "garage-media");
       Print (warning_sign
              ++ py " Bucket 'garage-media' already exists. Skipping creation.") ]).
Proof.
  apply (existing_bucket_is_left_alone
           (Cases.provisioning_session (Cases.refusal (py "403")))
           (Cases.provisioning_api (Cases.refusal (py "403")))
           Cases.arguments_eu).
  - reflexivity.
  - right. do 3 eexists. split; [reflexivity | split; reflexivity].
Defined.

(** X26.  A bucket that is not there ([head_bucket] refused with code 404,
    [NoSuchBucket] or [NotFound]) is created with one call, for the bucket
    and the ACL of the command line; the call names a location exactly when
    the region is not [us-east-1].  The region is the one of the command
    line, else the one of the session, else [us-east-1].  [main] then
    prints the success and exits with 0; when the creation raises a
    [ClientError] it prints the failure and exits with 1; any other
    exception ends the script. *)
Theorem missing_bucket_is_created (s : session) (api : s3_api) (args : arguments)
        (response : pydict) (message : str) (err : pydict) (code : str) :
  client_s3 s (resolve_region (arg_region args) s) = Done api ->
  head_bucket api (arg_bucket args) = Failed (ClientErr response message) ->
  dict_lookup response (py "Error") = Some (PDict err) ->
  dict_lookup err (py "Code") = Some (PStr code) ->
  In code [py "404"; py "NoSuchBucket"; py "NotFound"] ->
  let region := resolve_region (arg_region args) s in
  let kwargs :=
    [ (py "Bucket", PStr (arg_bucket args)); (py "ACL", PStr (arg_acl args)) ]
    ++ (if str_eqb region (py "us-east-1") then []
        else [ (py "CreateBucketConfiguration",
                PDict [ (py "LocationConstraint", PStr region) ]) ]) in
  let calls :=
    [ SessionClient (py "s3") region; HeadBucket (arg_bucket args); CreateBucket kwargs ] in
  main (Done s) args =
  match create_bucket_call api kwargs with
  | Done _ =>
      (Done 0%Z,
       calls ++ [Print (check_mark ++ py " Created S3 bucket '" ++ arg_bucket args
                        ++ py "' in region '" ++ region ++ py "'.")])
  | Failed (ClientErr _ why) =>
      (Done 1%Z,
       calls ++ [Print (cross_mark ++ py " Failed to create bucket: " ++ why)])
  | Failed e => (Failed e, calls)
  end.
Proof.
  intros Hc Hhead He Hcode Hin region kwargs calls.
  assert (Hb : bucket_exists api (arg_bucket args)
               = (Done false, [HeadBucket (arg_bucket args)])).
  { rewrite (proj2 (bucket_exists_answers api (arg_bucket args))
                   response message err code Hhead He Hcode).
    destruct Hin as [<- | [<- | [<- | []]]]; reflexivity. }
  unfold main.
  rewrite (create_bucket_steps s api (arg_bucket args) (arg_region args) (arg_acl args)
             (Done false) _ Hc Hb).
  fold region. fold kwargs.
  destruct (create_bucket_call api kwargs) as [[] | [r' why | m | e]]; reflexivity.
Qed.

Lemma missing_bucket_is_created_witness :
  main (Done (Cases.provisioning_session (Cases.refusal (py "404")))) Cases.arguments_eu
  = (Done 0%Z,
     [ SessionClient (py "s3") (py "eu-west-1");
       HeadBucket (py "garage-media");
       CreateBucket [ (py "Bucket", PStr (py "garage-media"));
                      (py "ACL", PStr (py "private"));
                      (py "CreateBucketConfiguration",
                       PDict [ (py "LocationConstraint", PStr (py "eu-west-1")) ]) ];
       Print (check_mark
              ++ py " Created S3 bucket 'garage-media' in region 'eu-west-1'.") ]).
Proof.
  apply (missing_bucket_is_created
           (Cases.provisioning_session (Cases.refusal (py "404")))
           (Cases.provisioning_api (Cases.refusal (py "404")))
           Cases.arguments_eu
           (Cases.error_response (py "404"))
           (py "An error occurred (404) when calling the HeadBucket operation: refused")
           [ (py "Code", PStr (py "404")); (py "Message", PStr (py "refused")) ]
           (py "404")).
  - reflexivity.
  - reflexivity.
  - reflexivity.
  - reflexivity.
  - left. reflexivity.
Defined.

(** X27.  When [head_bucket] is refused with another code than 403, 404,
    [NoSuchBucket] and [NotFound], the [ClientError] is raised again by
    [bucket_exists]; [main] creates nothing, prints [Failed to create
    bucket:] with the text of the error and exits with status 1. *)
Theorem unexpected_refusal_is_reported (s : session) (api : s3_api) (args : arguments)
        (response : pydict) (message : str) (err : pydict) (code : str) :
  client_s3 s (resolve_region (arg_region args) s) = Done api ->
  head_bucket api (arg_bucket args) = Failed (ClientErr response message) ->
  dict_lookup response (py "Error") = Some (PDict err) ->
  dict_lookup err (py "Code") = Some (PStr code) ->
  ~ In code [py "403"; py "404"; py "NoSuchBucket"; py "NotFound"] ->
  bucket_exists api (arg_bucket args)
  = (Failed (ClientErr response message), [HeadBucket (arg_bucket args)])
  /\ main (Done s) args =
     (Done 1%Z,
      [ SessionClient (py "s3") (resolve_region (arg_region args) s);
        HeadBucket (arg_bucket args);
        Print (cross_mark ++ py " Failed to create bucket: " ++ message) ]).
Proof.
  intros Hc Hhead He Hcode Hnot.
  assert (Hb : bucket_exists api (arg_bucket args)
               = (Failed (ClientErr response message), [HeadBucket (arg_bucket args)])).
  { rewrite (proj2 (bucket_exists_answers api (arg_bucket args))
                   response message err code Hhead He Hcode).
    assert (Hneq : forall x, In x [py "403"; py "404"; py "NoSuchBucket"; py "NotFound"] ->
                             str_eqb code x = false).
    { intros x Hx. destruct (str_eqb code x) eqn:E; [| reflexivity].
      apply str_eqb_eq in E. subst x. contradiction. }
    rewrite (Hneq (py "404")), (Hneq (py "NoSuchBucket")), (Hneq (py "NotFound")),
      (Hneq (py "403")); cbn; auto. }
  split; [exact Hb |].
  unfold main.
  rewrite (create_bucket_steps s api (arg_bucket args) (arg_region args) (arg_acl args)
             _ _ Hc Hb).
  reflexivity.
Qed.

Lemma unexpected_refusal_is_reported_witness :
  main (Done (Cases.provisioning_session (Cases.refusal (py "500")))) Cases.arguments_eu
  = (Done 1%Z,
     [ SessionClient (py "s3") (py "eu-west-1");
       HeadBucket (py "garage-media");
       Print (cross_mark
              ++ py " Failed to create bucket: An error occurred (500) when calling the HeadBucket operation: refused") ]).
Proof.
  apply (proj2 (unexpected_refusal_is_reported
                  (Cases.provisioning_session (Cases.refusal (py "500")))
                  (Cases.provisioning_api (Cases.refusal (py "500")))
                  Cases.arguments_eu
                  (Cases.error_response (py "500"))
                  (py "An error occurred (500) when calling the HeadBucket operation: refused")
                  [ (py "Code", PStr (py "500")); (py "Message", PStr (py "refused")) ]
                  (py "500")
                  eq_refl eq_refl eq_refl eq_refl
                  ltac:(intros [H | [H | [H | [H | []]]]]; discriminate))).
Defined.

(** The calls of [bucket_exists]: the one look at the bucket. *)
Lemma bucket_exists_trace (api : s3_api) (name : str) :
  snd (bucket_exists api name) = [HeadBucket name].
Proof.
  unfold bucket_exists.
  destruct (head_bucket api name) as [[] | [response message | m | e]]; reflexivity.
Qed.

(** X28.  Every creation [main] asks for is for the bucket and the ACL of
    the command line, on a client made for a region that is not empty, and
    after one look at the bucket; it names a location exactly when that
    region is not [us-east-1], and the location is then that region.  At
    most one creation is asked for. *)
Theorem every_creation_call (boto3_session : outcome session) (args : arguments)
        (kwargs : pydict) :
  In (CreateBucket kwargs) (snd (main boto3_session args)) ->
  exists (region : str) (rest : list call),
    region <> []
    /\ snd (main boto3_session args)
       = SessionClient (py "s3") region :: HeadBucket (arg_bucket args)
         :: CreateBucket kwargs :: rest
    /\ (forall k, ~ In (CreateBucket k) rest)
    /\ kwargs
       = [ (py "Bucket", PStr (arg_bucket args)); (py "ACL", PStr (arg_acl args)) ]
         ++ (if str_eqb region (py "us-east-1") then []
             else [ (py "CreateBucketConfiguration",
                     PDict [ (py "LocationConstraint", PStr region) ]) ]).
Proof.
  intros Hin.
  destruct boto3_session as [s | e];
    [| destruct e; cbn in Hin; try contradiction;
       repeat (destruct Hin as [Hin | Hin]; try discriminate; try contradiction)].
  destruct (client_s3 s (resolve_region (arg_region args) s)) as [api | e] eqn:Hc.
  - destruct (bucket_exists api (arg_bucket args)) as [answer t] eqn:Hb.
    pose proof (bucket_exists_trace api (arg_bucket args)) as Ht.
    rewrite Hb in Ht. cbn in Ht. subst t.
    unfold main in *.
    rewrite (create_bucket_steps s api (arg_bucket args) (arg_region args) (arg_acl args)
               answer _ Hc Hb) in *.
    destruct answer as [[|] | e].
    + cbn in Hin. destruct Hin as [H | [H | [H | []]]]; discriminate.
    + destruct (create_bucket_call api _) as [[] | [r' why | m | e]] eqn:Hcall;
        cbn in Hin;
        repeat (destruct Hin as [Hin | Hin]; try discriminate; try contradiction);
        injection Hin as <-;
        eexists; eexists;
        (split; [apply (resolve_region_not_empty (arg_region args) s) |]);
        (split; [cbn; reflexivity |]);
        (split; [| reflexivity]);
        intros k Hk; cbn in Hk; try contradiction;
        repeat (destruct Hk as [Hk | Hk]; try discriminate; try contradiction).
    + destruct e; cbn in Hin;
        repeat (destruct Hin as [Hin | Hin]; try discriminate; try contradiction).
  - unfold main, create_bucket, then_, request in Hin. cbv zeta in Hin.
    rewrite Hc in Hin. destruct e; cbn in Hin;
      repeat (destruct Hin as [Hin | Hin]; try discriminate; try contradiction).
Qed.

Lemma every_creation_call_witness :
  exists (region : str) (rest : list call),
    region <> []
    /\ snd (main (Done (Cases.provisioning_session (Cases.refusal (py "NoSuchBucket"))))
                 {| arg_bucket := py "garage-media";
                    arg_region := [];
                    arg_acl := py "private" |})
       = SessionClient (py "s3") region :: HeadBucket (py "garage-media")
         :: CreateBucket [ (py "Bucket", PStr (py "garage-media"));
                           (py "ACL", PStr (py "private")) ] :: rest
    /\ (forall k, ~ In (CreateBucket k) rest)
    /\ [ (py "Bucket", PStr (py "garage-media")); (py "ACL", PStr (py "private")) ]
       = [ (py "Bucket", PStr (py "garage-media")); (py "ACL", PStr (py "private")) ]
         ++ (if str_eqb region (py "us-east-1") then []
             else [ (py "CreateBucketConfiguration",
                     PDict [ (py "LocationConstraint", PStr region) ]) ]).
Proof.
  apply (every_creation_call
           (Done (Cases.provisioning_session (Cases.refusal (py "NoSuchBucket"))))
           {| arg_bucket := py "garage-media"; arg_region := []; arg_acl := py "private" |}).
  vm_compute. right. right. left. reflexivity.
Defined.

End Provisioning.

(* ================================================================== *)
(** * The key script *)
(* ================================================================== *)

Section KeyScript.

Import Script.
Import SetOpenAIKey.

(** X29.  [set_openai_key.py] wants exactly one argument after its name:
    with any other number it exits with the usage message and calls
    nothing.  With one, whatever it is (the empty string too), it asks for
    one update of the function [mechanic-ai-lambda], whose environment is
    given as the single variable [OPENAI_API_KEY] holding that argument,
    no other variable being sent; the success is printed only after an
    update that did not raise, and an exception of the update ends the
    script. *)
Theorem key_script_calls (boto3_client_lambda : outcome lambda_api) (argv : list str) :
  (List.length argv <> 2%nat ->
   main boto3_client_lambda argv
   = (Failed (SystemExit (py "Usage: python set_openai_key.py <api-key>")), []))
  /\ (forall (name key : str) (client : lambda_api),
         argv = [name; key] ->
         boto3_client_lambda = Done client ->
         let environment :=
           PDict [ (py "Variables", PDict [ (py "OPENAI_API_KEY", PStr key) ]) ] in
         main boto3_client_lambda argv =
         match update_function_configuration client (py "mechanic-ai-lambda") environment with
         | Done _ =>
             (Done tt,
              [ LambdaClient;
                UpdateFunctionConfiguration (py "mechanic-ai-lambda") environment;
                Print (check_mark ++ py " OpenAI key updated successfully in AWS Lambda.") ])
         | Failed e =>
             (Failed e,
              [ LambdaClient;
                UpdateFunctionConfiguration (py "mechanic-ai-lambda") environment ])
         end).
Proof.
  split.
  - intros Hlen. unfold main.
    destruct (Nat.eqb (List.length argv) 2) eqn:E; [| reflexivity].
    apply Nat.eqb_eq in E. contradiction.
  - intros name key client -> -> environment. unfold main. cbn [List.length Nat.eqb negb nth].
    unfold then_, request, print. fold environment.
    destruct (update_function_configuration client (py "mechanic-ai-lambda") environment)
      as [[] | e]; reflexivity.
Qed.

Lemma key_script_calls_witness :
  main (Done Cases.lambda_up) [py "set_openai_key.py"]
  = (Failed (SystemExit (py "Usage: python set_openai_key.py <api-key>")), [])
  /\ main (Done Cases.lambda_up) [py "set_openai_key.py"; py "sk-live"]
     = (Done tt,
        [ LambdaClient;
          UpdateFunctionConfiguration
            (py "mechanic-ai-lambda")
            (PDict [ (py "Variables", PDict [ (py "OPENAI_API_KEY", PStr (py "sk-live")) ]) ]);
          Print (check_mark ++ py " OpenAI key updated successfully in AWS Lambda.") ]).
Proof.
  split.
  - apply (proj1 (key_script_calls (Done Cases.lambda_up) [py "set_openai_key.py"])).
    discriminate.
  - apply (proj2 (key_script_calls (Done Cases.lambda_up)
                                   [py "set_openai_key.py"; py "sk-live"])
                 (py "set_openai_key.py") (py "sk-live") Cases.lambda_up);
      reflexivity.
Defined.

End KeyScript.
